(** * The generic data table: filter, sort, paginate

    A shallow embedding of the [Table] component
    (frontend/src/components/Table, a React component over the
    [@tanstack/react-table] engine) together with the parts of the engine
    and of the pagination context that the component drives.

    Layout of the development:
    - [Js]: the JavaScript values and primitives the code relies on
      (truthiness, [toString], [toLowerCase], [includes], [Array.slice],
      [Math.ceil] of a quotient, a stable [Array.sort]);
    - the page-index store behind [usePaginationContext];
    - the row-model pipeline of the table engine;
    - the component itself: [fuzzyFilter], the wiring of [useReactTable],
      the summary line and the pager buttons;
    - the properties. *)

From Stdlib Require Import ZArith Lia Bool Ascii DecimalString Sorted.
From stdpp Require Import base strings list gmap.

Local Open Scope Z_scope.

(** ** JavaScript values and primitives *)

Module Js.

(** The primitive values a table cell can hold.  Numbers are the integers
    (ids, counters); their [toString] is the decimal numeral. *)
Inductive value : Type :=
| Undefined
| Null
| Boolean (b : bool)
| Number (n : Z)
| Str (s : string).

(** [ToBoolean]: what the test of a conditional sees. *)
Definition truthy (v : value) : bool :=
  match v with
  | Undefined | Null => false
  | Boolean b => b
  | Number n => negb (n =? 0)
  | Str s => negb (String.eqb s "")
  end.

(** [v === undefined]. *)
Definition is_undefined (v : value) : bool :=
  match v with
  | Undefined => true
  | _ => false
  end.

(** [typeof v === 'string' || typeof v === 'number']. *)
Definition is_string_or_number (v : value) : bool :=
  match v with
  | Number _ | Str _ => true
  | _ => false
  end.

Definition number_toString (n : Z) : string :=
  NilZero.string_of_int (Z.to_int n).

(** The stringified value, [String(v)]; on a value that is neither
    [null] nor [undefined] it is also [v.toString()]. *)
Definition toString (v : value) : string :=
  match v with
  | Undefined => "undefined"
  | Null => "null"
  | Boolean true => "true"
  | Boolean false => "false"
  | Number n => number_toString n
  | Str s => s
  end.

Definition lower_ascii (c : ascii) : ascii :=
  let n := nat_of_ascii c in
  if ((65 <=? n) && (n <=? 90))%nat then ascii_of_nat (n + 32) else c.

(** [String.prototype.toLowerCase] on ASCII text (code units below 128),
    where it folds the letters A to Z and nothing else.  On other text the
    real function is Unicode-aware and context-sensitive; a statement that
    depends on how the letters of a text are folded holds of the code for
    ASCII text only and says so ([is_ascii]). *)
Fixpoint toLowerCase (s : string) : string :=
  match s with
  | EmptyString => EmptyString
  | String c s' => String (lower_ascii c) (toLowerCase s')
  end.

(** [String.prototype.includes]: [needle] occurs at some offset of [s]. *)
Fixpoint includes (s needle : string) : bool :=
  String.prefix needle s
  || match s with
     | EmptyString => false
     | String _ s' => includes s' needle
     end.

(** [Array.prototype.slice (start, end)], with the relative-index
    treatment of negative arguments. *)
Definition slice {A : Type} (l : list A) (start stop : Z) : list A :=
  let len := Z.of_nat (length l) in
  let k := if start <? 0 then Z.max (len + start) 0 else Z.min start len in
  let final := if stop <? 0 then Z.max (len + stop) 0 else Z.min stop len in
  take (Z.to_nat (final - k)) (drop (Z.to_nat k) l).

(** [Math.ceil (n / d)] for a non-negative integer [n] and a positive
    integer [d]: the quotient rounded up.  (On array lengths the floating
    point quotient rounds to the same integer.) *)
Definition ceil_div (n d : Z) : Z := (n + d - 1) / d.

Section Sort.
Context {A : Type}.
Variable compareFn : A -> A -> Z.

(** [Array.prototype.sort (compareFn)].  For a comparator that is
    consistent on the array the result is fixed by the language: the
    elements in comparator order, equal ones in their original order
    (the sort is stable).  The function below computes that result: an
    element is placed in front of the first already-placed element it
    does not compare greater than, and never in front of a later one.
    For an inconsistent comparator the real order is left to the
    implementation, and only the fact that the result is a rearrangement
    of the array carries over; every statement about the order of a
    sorted sequence assumes a consistent comparator. *)
Fixpoint insert_sorted (x : A) (l : list A) : list A :=
  match l with
  | [] => [x]
  | y :: l' =>
      if compareFn x y <=? 0 then x :: y :: l'
      else y :: insert_sorted x l'
  end.

Fixpoint sort (l : list A) : list A :=
  match l with
  | [] => []
  | x :: l' => insert_sorted x (sort l')
  end.
End Sort.

End Js.

(** ** The page-index store behind [usePaginationContext] *)

Module PageStore.

(** Modelled from the spec: the pagination context module
    (contexts/PaginationContext) is not among the sources.  The spec gives
    the store's interface: [getPageIndex (listIdentity) -> int],
    [setPageIndex (listIdentity, int) -> void], default 0 for unseen
    identities. *)
Definition getPageIndex (store : gmap string Z) (listIdentity : string) : Z :=
  default 0 (store !! listIdentity).

Definition setPageIndex (store : gmap string Z) (listIdentity : string)
    (index : Z) : gmap string Z :=
  <[listIdentity := index]> store.

(** Modelled from the spec: the two members the component destructures
    from [usePaginationContext ()], for a table mounted for the logical
    list [listIdentity].  Every list identity has a counter of its own;
    the hook is called without an argument, so the list a table belongs
    to is fixed by the context it is mounted in, not by its props. *)
Definition pageIndexFor (listIdentity : string) (store : gmap string Z) : Z :=
  getPageIndex store listIdentity.

Definition setPageIndexFor (listIdentity : string) (index : Z)
    (store : gmap string Z) : gmap string Z :=
  setPageIndex store listIdentity index.

(** Modelled from the spec: the same two members for the table of the
    project list, whose identity the spec names "projects".  The tables
    of the properties below are mounted for that list unless a list
    identity is given. *)
Definition projectsIdentity : string := "projects".

Definition projectPageIndex (store : gmap string Z) : Z :=
  getPageIndex store projectsIdentity.

Definition setProjectPageIndex (index : Z) (store : gmap string Z)
    : gmap string Z :=
  setPageIndex store projectsIdentity index.

End PageStore.

(** ** The table engine, as far as the component drives it

    The engine is the library [@tanstack/react-table] (version 8), which
    the component imports; it is not part of the repository.  The
    definitions below follow the library's row models ([getCoreRowModel],
    [getFilteredRowModel], [getSortedRowModel], [getPaginationRowModel])
    and its pagination interface.  The component passes neither
    [pageCount], [rowCount], [manualPagination] nor [autoResetAll]; the
    engine code below is the branch taken when those options are
    [undefined]. *)

Module Engine.

Record PaginationState := { pageIndex : Z; pageSize : Z }.

Record ColumnSort := { sort_id : string; desc : bool }.

(** [Updater<T>]: a new value, or a function of the old one. *)
Inductive Updater (T : Type) : Type :=
| Value (v : T)
| Fn (f : T -> T).
Arguments Value {T} v.
Arguments Fn {T} f.

Definition functionalUpdate {T : Type} (updater : Updater T) (old : T) : T :=
  match updater with
  | Value v => v
  | Fn f => f old
  end.

(** A row of the core row model: its position in [data] and the record. *)
Record Row := { index : Z; original : gmap string Js.value }.

(** [row.getValue (columnId)] for an accessor-key column. *)
Definition getValue (row : Row) (columnId : string) : Js.value :=
  default Js.Undefined (original row !! columnId).

(** [FilterFn]: row, column id, filter value (the [addMeta] callback is
    not used by the component's filter). *)
Definition FilterFn : Type := Row -> string -> string -> bool.

Record ColumnDef := {
  col_id : string;
  sortingFn : Row -> Row -> string -> Z;
  (** numeric [sortUndefined]; 0 stands for [false]; the default is 1 *)
  sortUndefined : Z;
  invertSorting : bool
}.

Definition MAX_SAFE_INTEGER : Z := 9007199254740991.

Section Table.
(** [W]: whatever the [on...Change] callbacks of the caller act on. *)
Context {W : Type}.

Record Options := {
  data : list (gmap string Js.value);
  columns : list ColumnDef;
  sorting : list ColumnSort;
  globalFilter : string;
  pagination : PaginationState;
  globalFilterFn : FilterFn;
  autoResetPageIndex : option bool;
  onPaginationChange : Updater PaginationState -> W -> W
}.

Variable table : Options.

Definition getColumn (columnId : string) : option ColumnDef :=
  List.find (fun c => String.eqb (col_id c) columnId) (columns table).

(** *** Core rows *)
Definition getCoreRowModel : list Row :=
  imap (fun i d => {| index := Z.of_nat i; original := d |}) (data table).

(** *** Filtering *)

(** default [getColumnCanGlobalFilter]: the column's value in the first
    core row is a string or a number. *)
Definition getCanGlobalFilter (c : ColumnDef) : bool :=
  match getCoreRowModel with
  | [] => false
  | row0 :: _ => Js.is_string_or_number (getValue row0 (col_id c))
  end.

Definition globallyFilterableColumns : list ColumnDef :=
  List.filter getCanGlobalFilter (columns table).

(** the [__global__] flag of a row: the first truthy column wins *)
Definition passesGlobalFilter (row : Row) : bool :=
  existsb (fun c => globalFilterFn table row (col_id c) (globalFilter table))
          globallyFilterableColumns.

Definition getPreFilteredRowModel : list Row := getCoreRowModel.

Definition getFilteredRowModel : list Row :=
  let rowModel := getPreFilteredRowModel in
  match rowModel with
  | [] => rowModel
  | _ :: _ =>
      if String.eqb (globalFilter table) "" then rowModel
      else
        match globallyFilterableColumns with
        | [] => rowModel
        | _ :: _ => List.filter passesGlobalFilter rowModel
        end
  end.

(** *** Sorting *)

Definition availableSorting : list ColumnSort :=
  List.filter (fun s => bool_decide (is_Some (getColumn (sort_id s))))
              (sorting table).

(** The comparison of one sort entry, [None] when it ties ([sortInt]
    stays 0) and the next entry decides. *)
Definition compareEntry (sortEntry : ColumnSort) (rowA rowB : Row)
    : option Z :=
  match getColumn (sort_id sortEntry) with
  | None => None
  | Some column =>
      let aUndefined := Js.is_undefined (getValue rowA (sort_id sortEntry)) in
      let bUndefined := Js.is_undefined (getValue rowB (sort_id sortEntry)) in
      let sortInt0 :=
        if negb (sortUndefined column =? 0) && (aUndefined || bUndefined)
        then if aUndefined && bUndefined then 0
             else if aUndefined then sortUndefined column
                  else - sortUndefined column
        else 0 in
      let sortInt :=
        if sortInt0 =? 0
        then sortingFn column rowA rowB (sort_id sortEntry)
        else sortInt0 in
      if sortInt =? 0 then None
      else
        let s1 := if desc sortEntry then sortInt * -1 else sortInt in
        let s2 := if invertSorting column then s1 * -1 else s1 in
        Some s2
  end.

(** The comparator handed to [Array.sort]: the sort entries in order,
    then the row index. *)
Fixpoint compareBy (entries : list ColumnSort) (rowA rowB : Row) : Z :=
  match entries with
  | [] => index rowA - index rowB
  | sortEntry :: rest =>
      match compareEntry sortEntry rowA rowB with
      | Some sortInt => sortInt
      | None => compareBy rest rowA rowB
      end
  end.

Definition compareRows : Row -> Row -> Z := compareBy availableSorting.

Definition getPreSortedRowModel : list Row := getFilteredRowModel.

Definition getSortedRowModel : list Row :=
  let rowModel := getPreSortedRowModel in
  match rowModel, sorting table with
  | [], _ => rowModel
  | _, [] => rowModel
  | _, _ => Js.sort compareRows rowModel
  end.

(** *** Pagination *)

Definition getPrePaginationRowModel : list Row := getSortedRowModel.

Definition getPaginationRowModel : list Row :=
  let rowModel := getPrePaginationRowModel in
  match rowModel with
  | [] => rowModel
  | _ :: _ =>
      let pageStart := pageSize (pagination table) * pageIndex (pagination table) in
      let pageEnd := pageStart + pageSize (pagination table) in
      Js.slice rowModel pageStart pageEnd
  end.

Definition getRowModel : list Row := getPaginationRowModel.

Definition getRowCount : Z := Z.of_nat (length getPrePaginationRowModel).

Definition getPageCount : Z :=
  Js.ceil_div getRowCount (pageSize (pagination table)).

Definition getCanPreviousPage : bool := 0 <? pageIndex (pagination table).

Definition getCanNextPage : bool :=
  let pageCount := getPageCount in
  if pageCount =? -1 then true
  else if pageCount =? 0 then false
  else pageIndex (pagination table) <? pageCount - 1.

Definition setPagination (updater : Updater PaginationState) : W -> W :=
  onPaginationChange table (Fn (fun old => functionalUpdate updater old)).

Definition setPageIndex (updater : Updater Z) : W -> W :=
  setPagination (Fn (fun old =>
    let pageIndex0 := functionalUpdate updater (pageIndex old) in
    let maxPageIndex := MAX_SAFE_INTEGER in
    {| pageIndex := Z.max 0 (Z.min pageIndex0 maxPageIndex);
       pageSize := pageSize old |})).

Definition previousPage : W -> W := setPageIndex (Fn (fun old => old - 1)).

Definition nextPage : W -> W := setPageIndex (Fn (fun old => old + 1)).

Definition resetPageIndex : W -> W := setPageIndex (Value 0).

(** Runs when the filtered or sorted row model has been recomputed
    ([autoResetAll ?? autoResetPageIndex ?? !manualPagination]). *)
Definition _autoResetPageIndex : W -> W :=
  if default true (autoResetPageIndex table) then resetPageIndex
  else fun w => w.

End Table.

Arguments Options W : clear implicits.

End Engine.

(** ** The component ([Table], components/Table) *)

Import Engine.

(** [fuzzyFilter]: the filter function registered as [globalFilterFn]. *)
Definition fuzzyFilter : FilterFn := fun row columnId value =>
  let itemRank := getValue row columnId in
  if Js.truthy itemRank
  then Js.includes (Js.toLowerCase (Js.toString itemRank)) (Js.toLowerCase value)
  else false.

(** [TableProps<T>]; [pageSize] is 10 when the caller leaves it out. *)
Record TableProps := {
  props_data : list (gmap string Js.value);
  props_columns : list ColumnDef;
  props_pageSize : Z
}.

Definition defaultPageSize : Z := 10.

(** The two [React.useState] cells of a mounted instance. *)
Record TableState := {
  st_sorting : list ColumnSort;
  st_globalFilter : string
}.

(** What a freshly mounted instance starts from:
    [useState ([])] and [useState ('')]. *)
Definition initialState : TableState :=
  {| st_sorting := []; st_globalFilter := "" |}.

(** The [useReactTable] call of one render: [ctx] is the page-index store
    as [usePaginationContext] sees it during that render.  The
    [onPaginationChange] closure reads the [projectPageIndex] of the render
    and writes through [setProjectPageIndex]. *)
Definition useReactTable (props : TableProps) (st : TableState)
    (ctx : gmap string Z) : Options (gmap string Z) :=
  let projectPageIndex := PageStore.projectPageIndex ctx in
  let pageSize := props_pageSize props in
  {| data := props_data props;
     columns := props_columns props;
     sorting := st_sorting st;
     globalFilter := st_globalFilter st;
     pagination := {| pageIndex := projectPageIndex; pageSize := pageSize |};
     globalFilterFn := fuzzyFilter;
     autoResetPageIndex := Some false;
     onPaginationChange := fun updater =>
       let newPaginationState :=
         match updater with
         | Fn f => f {| pageIndex := projectPageIndex; pageSize := pageSize |}
         | Value v => v
         end in
       PageStore.setProjectPageIndex (pageIndex newPaginationState) |}.

(** *** What a render shows *)

Section Render.
Variable props : TableProps.
Variable st : TableState.
Variable ctx : gmap string Z.

Let table := useReactTable props st ctx.

Definition totalPages : Z := getPageCount table.
Definition currentPage : Z := pageIndex (pagination table).
Definition showPagination : bool := 1 <? totalPages.

(** the rows of the table body *)
Definition bodyRows : list Row := getRowModel table.

(** the text of the summary line under the table *)
Definition summaryText : string :=
  let filteredLength := Z.of_nat (length (getFilteredRowModel table)) in
  "Showing" +:+ " "
  +:+ (if showPagination
       then Js.number_toString (currentPage * props_pageSize props + 1)
            +:+ " to "
            +:+ Js.number_toString
                  (Z.min ((currentPage + 1) * props_pageSize props) filteredLength)
       else Js.number_toString filteredLength)
  +:+ " " +:+ "of " +:+ Js.number_toString filteredLength +:+ " results".

(** the four pager buttons: [<<], [<], [>], [>>] *)
Inductive PagerButton : Type := FirstBtn | PrevBtn | NextBtn | LastBtn.

(** the [disabled] attribute of a button *)
Definition buttonDisabled (b : PagerButton) : bool :=
  match b with
  | FirstBtn | PrevBtn => negb (getCanPreviousPage table)
  | NextBtn | LastBtn => negb (getCanNextPage table)
  end.

(** the [onClick] handler of a button *)
Definition buttonOnClick (b : PagerButton) : gmap string Z -> gmap string Z :=
  match b with
  | FirstBtn => setPageIndex table (Value 0)
  | PrevBtn => previousPage table
  | NextBtn => nextPage table
  | LastBtn => setPageIndex table (Value (totalPages - 1))
  end.

(** A click on a pager button.  The buttons are rendered only under
    [showPagination], and a disabled button does not run its handler. *)
Definition clickButton (b : PagerButton) : gmap string Z :=
  if showPagination && negb (buttonDisabled b)
  then buttonOnClick b ctx
  else ctx.

End Render.

(** *** State changes of a mounted instance *)

(** The search box: [onChange] stores the text with [setGlobalFilter]; on
    the render that follows the engine recomputes the filtered row model
    and runs its page-index auto-reset hook.  The result is the new local
    state and the new content of the store. *)
Definition setGlobalFilter (props : TableProps) (text : string)
    (st : TableState) (ctx : gmap string Z) : TableState * gmap string Z :=
  let st' := {| st_sorting := st_sorting st; st_globalFilter := text |} in
  (st', _autoResetPageIndex (useReactTable props st' ctx) ctx).

(** [setSorting], the same way. *)
Definition setSorting (props : TableProps) (sorting' : list ColumnSort)
    (st : TableState) (ctx : gmap string Z) : TableState * gmap string Z :=
  let st' := {| st_sorting := sorting'; st_globalFilter := st_globalFilter st |} in
  (st', _autoResetPageIndex (useReactTable props st' ctx) ctx).

(** A sequence of inputs to the search box, one [setGlobalFilter] each. *)
Definition typeSearch (props : TableProps) (texts : list string)
    (st : TableState) (ctx : gmap string Z) : TableState * gmap string Z :=
  foldl (fun w text => setGlobalFilter props text (fst w) (snd w)) (st, ctx) texts.

(** ** Notions used to state the properties *)

(** The spec's test on one cell: the stringified value contains the filter
    text, letter case ignored. *)
Definition containsIgnoreCase (v : Js.value) (text : string) : bool :=
  Js.includes (Js.toLowerCase (Js.toString v)) (Js.toLowerCase text).

(** ** Sample columns and tables *)

(** The engine's [basic] sorting function on a column of numbers:
    [a === b ? 0 : a > b ? 1 : -1]. *)
Definition basicNumbers (rowA rowB : Row) (columnId : string) : Z :=
  match getValue rowA columnId, getValue rowB columnId with
  | Js.Number a, Js.Number b => if a =? b then 0 else if b <? a then 1 else -1
  | _, _ => 0
  end.

(** The same on a column of strings, by code unit. *)
Definition basicStrings (rowA rowB : Row) (columnId : string) : Z :=
  match getValue rowA columnId, getValue rowB columnId with
  | Js.Str a, Js.Str b =>
      match String.compare a b with
      | Eq => 0
      | Gt => 1
      | Lt => -1
      end
  | _, _ => 0
  end.

Definition numberColumn (columnId : string) : ColumnDef :=
  {| col_id := columnId; sortingFn := basicNumbers;
     sortUndefined := 1; invertSorting := false |}.

Definition textColumn (columnId : string) : ColumnDef :=
  {| col_id := columnId; sortingFn := basicStrings;
     sortUndefined := 1; invertSorting := false |}.

(** A record [{ id, name }]. *)
Definition item (id : Z) (name : string) : gmap string Js.value :=
  {[ "id" := Js.Number id; "name" := Js.Str name ]}.

Definition itemColumns : list ColumnDef := [numberColumn "id"; textColumn "name"].

(** Five items, two to a page. *)
Definition fiveItems : TableProps :=
  {| props_data := [item 1 "Alpha"; item 2 "beta"; item 3 "Gamma";
                    item 4 "delta"; item 5 "Epsilon"];
     props_columns := itemColumns;
     props_pageSize := 2 |}.

(** A table with one record [{ n: 0 }]. *)
Definition zeroTable : TableProps :=
  {| props_data := [ {[ "n" := Js.Number 0 ]} ];
     props_columns := [numberColumn "n"];
     props_pageSize := defaultPageSize |}.

(** A table without rows. *)
Definition emptyTable : TableProps :=
  {| props_data := []; props_columns := itemColumns;
     props_pageSize := defaultPageSize |}.

(** The rows [{n:3}, {n:1}, {n:2}], two to a page. *)
Definition threeNumbers : TableProps :=
  {| props_data := [ {[ "n" := Js.Number 3 ]}; {[ "n" := Js.Number 1 ]};
                     {[ "n" := Js.Number 2 ]} ];
     props_columns := [numberColumn "n"];
     props_pageSize := 2 |}.

Definition searching (text : string) : TableState :=
  {| st_sorting := []; st_globalFilter := text |}.

Definition sortedBy (columnId : string) (descending : bool) : TableState :=
  {| st_sorting := [ {| sort_id := columnId; desc := descending |} ];
     st_globalFilter := "" |}.

(** [before a b l]: an occurrence of [a] in [l] precedes an occurrence of
    [b]; the relative order two rows have in a sequence. *)
Inductive before {A : Type} (a b : A) : list A -> Prop :=
| before_here (l : list A) : b ∈ l -> before a b (a :: l)
| before_further (y : A) (l : list A) : before a b l -> before a b (y :: l).

(** Four records [{ k, tag }] with two keys, each key twice. *)
Definition keyed (k : Z) (tag : string) : gmap string Js.value :=
  {[ "k" := Js.Number k; "tag" := Js.Str tag ]}.

Definition twoPairs : TableProps :=
  {| props_data := [keyed 2 "x"; keyed 1 "y"; keyed 2 "z"; keyed 1 "w"];
     props_columns := [numberColumn "k"; textColumn "tag"];
     props_pageSize := defaultPageSize |}.

(** Twenty-five records, numbered from 1. *)
Definition twentyFive : TableProps :=
  {| props_data := (fun i => item (Z.of_nat i) "row") <$> seq 1 25;
     props_columns := itemColumns;
     props_pageSize := defaultPageSize |}.

(** The table of the project list and the table of the tasks of project 7. *)
Definition projectsTable : TableProps := fiveItems.

Definition tasks7Table : TableProps :=
  {| props_data := [item 71 "Design"; item 72 "Build"; item 73 "Ship"];
     props_columns := itemColumns;
     props_pageSize := defaultPageSize |}.

(** ** The rest of the component: pager click sequences, summary range,
    header clicks *)

(** A sequence of clicks on pager buttons; every click is handled by the
    render that follows the previous one. *)
Definition clickButtons (props : TableProps) (st : TableState)
    (buttons : list PagerButton) (ctx : gmap string Z) : gmap string Z :=
  foldl (fun c b => clickButton props st c b) ctx buttons.

(** The two numbers of the summary line when the pager is shown:
    [currentPage * pageSize + 1] and
    [Math.min ((currentPage + 1) * pageSize, filtered rows)]. *)
Definition summaryFrom (props : TableProps) (st : TableState)
    (ctx : gmap string Z) : Z :=
  currentPage props st ctx * props_pageSize props + 1.

Definition summaryTo (props : TableProps) (st : TableState)
    (ctx : gmap string Z) : Z :=
  Z.min ((currentPage props st ctx + 1) * props_pageSize props)
        (Z.of_nat (length (getFilteredRowModel (useReactTable props st ctx)))).

(** *** The engine's sorting interface, behind [getToggleSortingHandler]

    As for the rest of the engine, the options the component leaves out
    ([sortDescFirst], [enableSortingRemoval], [enableMultiSort],
    [maxMultiSortColCount], [isMultiSortEvent]) are taken at their
    defaults. *)

Inductive SortDirection : Type := Asc | Desc.

Definition SortDirection_eqb (a b : SortDirection) : bool :=
  match a, b with
  | Asc, Asc | Desc, Desc => true
  | _, _ => false
  end.

Inductive SortAction : Type := AddSort | RemoveSort | ToggleSort | ReplaceSort.

(** [Array.prototype.findIndex]: the position of the first hit, -1 when
    there is none. *)
Fixpoint findIndex {A : Type} (f : A -> bool) (l : list A) : Z :=
  match l with
  | [] => -1
  | x :: l' =>
      if f x then 0
      else let i := findIndex f l' in if i <? 0 then -1 else i + 1
  end.

Section SortingApi.
Context {W : Type}.
Variable table : Options W.

(** [column.getIsSorted ()]: [false] ([None]), ['asc'] or ['desc']. *)
Definition getIsSorted (columnId : string) : option SortDirection :=
  match List.find (fun d => String.eqb (sort_id d) columnId) (sorting table) with
  | None => None
  | Some columnSort => Some (if desc columnSort then Desc else Asc)
  end.

(** [column.getAutoSortDir ()]: ascending when the value of the first
    filtered row is a string, descending otherwise. *)
Definition getAutoSortDir (columnId : string) : SortDirection :=
  match getFilteredRowModel table with
  | [] => Desc
  | firstRow :: _ =>
      match getValue firstRow columnId with
      | Js.Str _ => Asc
      | _ => Desc
      end
  end.

Definition getFirstSortDir (columnId : string) : SortDirection :=
  getAutoSortDir columnId.

(** [column.getNextSortingOrder ()]: [None] stands for [false], the
    request to remove the sort. *)
Definition getNextSortingOrder (columnId : string) : option SortDirection :=
  let firstSortDirection := getFirstSortDir columnId in
  match getIsSorted columnId with
  | None => Some firstSortDirection
  | Some isSorted =>
      if negb (SortDirection_eqb isSorted firstSortDirection) then None
      else Some (match isSorted with Desc => Asc | Asc => Desc end)
  end.

(** [column.toggleSorting (undefined, multi)]: the updater handed to
    [setSorting], applied to the old sorting state. *)
Definition toggleSorting (columnId : string) (multi : bool)
    (old : list ColumnSort) : list ColumnSort :=
  let nextSortingOrder := getNextSortingOrder columnId in
  let isColumn := fun d : ColumnSort => String.eqb (sort_id d) columnId in
  let existingSorting := List.find isColumn old in
  let existingIndex := findIndex isColumn old in
  let nextDesc :=
    match nextSortingOrder with
    | Some Desc => true
    | _ => false
    end in
  let hasEntries := negb (Nat.eqb (length old) 0) in
  let sortAction0 :=
    if hasEntries && multi
    then (match existingSorting with Some _ => ToggleSort | None => AddSort end)
    else if hasEntries && negb (existingIndex =? Z.of_nat (length old) - 1)
         then ReplaceSort
         else match existingSorting with
              | Some _ => ToggleSort
              | None => ReplaceSort
              end in
  let sortAction :=
    match sortAction0, nextSortingOrder with
    | ToggleSort, None => RemoveSort
    | a, _ => a
    end in
  match sortAction with
  | AddSort => old ++ [ {| sort_id := columnId; desc := nextDesc |} ]
  | ToggleSort =>
      List.map (fun d => if isColumn d
                         then {| sort_id := sort_id d; desc := nextDesc |}
                         else d) old
  | RemoveSort => List.filter (fun d => negb (isColumn d)) old
  | ReplaceSort => [ {| sort_id := columnId; desc := nextDesc |} ]
  end.

End SortingApi.

(** A click on a column header, with or without the shift key: the
    handler does nothing for a column that cannot be sorted, and otherwise
    hands the toggle to [setSorting] ([onSortingChange]). *)
Definition clickHeader (props : TableProps) (columnId : string) (shiftKey : bool)
    (st : TableState) (ctx : gmap string Z) : TableState * gmap string Z :=
  let table := useReactTable props st ctx in
  match getColumn table columnId with
  | None => (st, ctx)
  | Some _ =>
      setSorting props (toggleSorting table columnId shiftKey (st_sorting st))
                 st ctx
  end.

(** A sequence of plain clicks (no shift key) on column headers. *)
Definition clickHeaders (props : TableProps) (columnIds : list string)
    (st : TableState) (ctx : gmap string Z) : TableState * gmap string Z :=
  foldl (fun w columnId => clickHeader props columnId false (fst w) (snd w))
        (st, ctx) columnIds.

(** ** The task management modal ([TaskManagementModal],
    components/Task/TaskManagementModal.tsx) *)

Section TaskManagementModal.
(** The task records come from the task slice; the modal reads two of
    their fields. *)
Variable Task : Type.
(** [task.isCompleted] *)
Variable isCompleted : Task -> bool.
(** [new Date (task.createdAt).getTime ()]: the milliseconds of the
    creation date, [None] for [NaN] (a date that does not parse). *)
Variable getTime : Task -> option Z.

(** The comparator [(a, b) => time (b) - time (a)]; a [NaN] difference
    counts as 0 for [Array.sort]. *)
Definition byCreatedAtDesc (a b : Task) : Z :=
  match getTime b, getTime a with
  | Some tb, Some ta => tb - ta
  | _, _ => 0
  end.

(** [[...tasks].sort (...)] *)
Definition sortedTasks (tasks : list Task) : list Task :=
  Js.sort byCreatedAtDesc tasks.

Definition completedTasks (tasks : list Task) : Z :=
  Z.of_nat (length (List.filter isCompleted tasks)).

Definition totalTasks (tasks : list Task) : Z := Z.of_nat (length tasks).

(** the "Pending:" figure of the header *)
Definition pendingTasks (tasks : list Task) : Z :=
  totalTasks tasks - completedTasks tasks.

(** What is shown under the "Add New Task" bar. *)
Inductive ModalBody : Type :=
| LoadingTasks
| NoTasksYet
| TaskTableOf (data : list Task).

(** The rendered modal: the three header figures and the body; [None] is
    the [null] returned while the modal is closed. *)
Record ModalView := {
  view_total : Z;
  view_completed : Z;
  view_pending : Z;
  view_body : ModalBody
}.

Definition renderModal (isOpen loading : bool) (tasks : list Task)
    : option ModalView :=
  if negb isOpen then None
  else Some {| view_total := totalTasks tasks;
               view_completed := completedTasks tasks;
               view_pending := pendingTasks tasks;
               view_body :=
                 if loading then LoadingTasks
                 else if Nat.eqb (length (sortedTasks tasks)) 0 then NoTasksYet
                      else TaskTableOf (sortedTasks tasks) |}.

End TaskManagementModal.

(** A table whose first record has no string or number to search in. *)
Definition nullFirstTable : TableProps :=
  {| props_data := [ {[ "name" := Js.Null; "done" := Js.Boolean true ]};
                     {[ "name" := Js.Str "alpha"; "done" := Js.Boolean false ]};
                     {[ "name" := Js.Str "beta"; "done" := Js.Boolean false ]} ];
     props_columns := [textColumn "name"; textColumn "done"];
     props_pageSize := defaultPageSize |}.

(** ** A table mounted for a given list *)

(** The [useReactTable] call of a table mounted for the list
    [listIdentity]: as [useReactTable], with the counter of that list. *)
Definition useReactTableFor (listIdentity : string) (props : TableProps)
    (st : TableState) (store : gmap string Z) : Options (gmap string Z) :=
  let projectPageIndex := PageStore.pageIndexFor listIdentity store in
  let pageSize := props_pageSize props in
  {| data := props_data props;
     columns := props_columns props;
     sorting := st_sorting st;
     globalFilter := st_globalFilter st;
     pagination := {| pageIndex := projectPageIndex; pageSize := pageSize |};
     globalFilterFn := fuzzyFilter;
     autoResetPageIndex := Some false;
     onPaginationChange := fun updater =>
       let newPaginationState :=
         match updater with
         | Fn f => f {| pageIndex := projectPageIndex; pageSize := pageSize |}
         | Value v => v
         end in
       PageStore.setPageIndexFor listIdentity (pageIndex newPaginationState) |}.

(** ** Consistent comparators and ASCII text *)

(** A comparator is consistent on the elements of [l] when the sign of
    [compareFn x y] is the opposite of the sign of [compareFn y x] and
    "not greater than" is transitive: the condition under which
    [Array.prototype.sort] defines the sort order. *)
Definition consistentOn {A : Type} (compareFn : A -> A -> Z) (l : list A) : Prop :=
  (forall x y, x ∈ l -> y ∈ l ->
     (compareFn x y < 0 <-> 0 < compareFn y x)
     /\ (compareFn x y = 0 <-> compareFn y x = 0))
  /\ (forall x y z, x ∈ l -> y ∈ l -> z ∈ l ->
        compareFn x y <= 0 -> compareFn y z <= 0 -> compareFn x z <= 0).

(** every code unit of the text is below 128 *)
Fixpoint is_ascii (s : string) : bool :=
  match s with
  | EmptyString => true
  | String c s' => (nat_of_ascii c <? 128)%nat && is_ascii s'
  end.

(** every value of every record stringifies to ASCII text *)
Definition asciiData (data : list (gmap string Js.value)) : bool :=
  forallb (fun record =>
             forallb (fun kv => is_ascii (Js.toString (snd kv)))
                     (map_to_list record))
          data.

(** Two records, the second with [null] for a name. *)
Definition nullNameTable : TableProps :=
  {| props_data := [ {[ "name" := Js.Str "alpha" ]}; {[ "name" := Js.Null ]} ];
     props_columns := [textColumn "name"];
     props_pageSize := defaultPageSize |}.

(** * Properties *)

(** ** Auxiliary facts on the JavaScript primitives *)

Lemma prefix_empty (s : string) : String.prefix "" s = true.
Proof. destruct s; reflexivity. Qed.

Lemma includes_empty (s : string) : Js.includes s "" = true.
Proof. destruct s; simpl; [reflexivity | rewrite ?prefix_empty; reflexivity]. Qed.

Lemma append_cons (c : ascii) (p q : string) :
  String c p +:+ q = String c (p +:+ q).
Proof. reflexivity. Qed.

Lemma prefix_spec (p s : string) :
  String.prefix p s = true <-> exists post, s = p +:+ post.
Proof.
  revert s. induction p as [|a p IH]; intros s; simpl.
  - rewrite prefix_empty. split; [intros _; by exists s | reflexivity].
  - destruct s as [|b s]; simpl.
    + split; [discriminate | intros [post H]; discriminate].
    + destruct (ascii_dec a b) as [-> | Hne].
      * rewrite IH.
        split; intros [post H]; exists post; rewrite append_cons in *; congruence.
      * split; [discriminate |].
        intros [post H]. rewrite append_cons in H. congruence.
Qed.

(** [includes] is substring containment. *)
Lemma includes_spec (s needle : string) :
  Js.includes s needle = true <-> exists pre post, s = pre +:+ needle +:+ post.
Proof.
  induction s as [|c s IH].
  - change (Js.includes "" needle) with (String.prefix needle "" || false).
    rewrite orb_false_r, prefix_spec. split.
    + intros [post H]. by exists "", post.
    + intros (pre & post & H). destruct pre; [by exists post | discriminate].
  - change (Js.includes (String c s) needle)
      with (String.prefix needle (String c s) || Js.includes s needle).
    rewrite orb_true_iff, prefix_spec, IH. split.
    + intros [[post H] | (pre & post & H)].
      * by exists "", post.
      * exists (String c pre), post. rewrite append_cons. by rewrite H.
    + intros (pre & post & H). destruct pre as [|c' pre].
      * left. by exists post.
      * right. exists pre, post. rewrite append_cons in H. congruence.
Qed.

Lemma truthy_false_cases (v : Js.value) :
  Js.truthy v = false <->
  v = Js.Undefined \/ v = Js.Null \/ v = Js.Number 0
  \/ v = Js.Boolean false \/ v = Js.Str "".
Proof.
  split.
  - destruct v as [| |b|n|s]; simpl; intros H; auto.
    + destruct b; [discriminate | auto].
    + apply negb_false_iff, Z.eqb_eq in H. subst; auto.
    + apply negb_false_iff, String.eqb_eq in H. subst; auto 6.
  - intros [-> | [-> | [-> | [-> | ->]]]]; reflexivity.
Qed.

(** ** The global filter *)

Lemma fuzzyFilter_unfold (row : Row) (columnId value : string) :
  fuzzyFilter row columnId value
  = Js.truthy (getValue row columnId)
    && containsIgnoreCase (getValue row columnId) value.
Proof. unfold fuzzyFilter, containsIgnoreCase. destruct (Js.truthy _); reflexivity. Qed.

Lemma elem_of_bool_filter {A : Type} (f : A -> bool) (l : list A) (x : A) :
  x ∈ List.filter f l <-> x ∈ l /\ f x = true.
Proof. rewrite !list_elem_of_In. apply filter_In. Qed.

Lemma existsb_elem_of {A : Type} (f : A -> bool) (l : list A) :
  existsb f l = true <-> exists x, x ∈ l /\ f x = true.
Proof.
  rewrite existsb_exists. split; intros (x & Hx & Hf); exists x;
    (split; [by apply list_elem_of_In | done]).
Qed.

Lemma bool_filter_none {A : Type} (f : A -> bool) (l : list A) :
  (forall x, x ∈ l -> f x = false) -> List.filter f l = [].
Proof.
  induction l as [|y l IH]; intros H; [reflexivity |].
  simpl. rewrite (H y) by apply list_elem_of_here.
  apply IH. intros x Hx. apply H. by apply list_elem_of_further.
Qed.

Section GlobalFilter.
Context {W : Type}.
Variable table : Options W.

Lemma filtered_of_empty_text :
  globalFilter table = "" -> getFilteredRowModel table = getCoreRowModel table.
Proof.
  intros H. unfold getFilteredRowModel, getPreFilteredRowModel.
  destruct (getCoreRowModel table); [reflexivity |].
  rewrite H. reflexivity.
Qed.

Lemma filtered_of_no_filterable_column :
  globallyFilterableColumns table = [] ->
  getFilteredRowModel table = getCoreRowModel table.
Proof.
  intros H. unfold getFilteredRowModel, getPreFilteredRowModel.
  destruct (getCoreRowModel table); [reflexivity |].
  rewrite H. destruct (String.eqb _ _); reflexivity.
Qed.

Lemma filtered_of_text :
  globalFilter table <> "" -> globallyFilterableColumns table <> [] ->
  getFilteredRowModel table
  = List.filter (passesGlobalFilter table) (getCoreRowModel table).
Proof.
  intros Ht Hc. unfold getFilteredRowModel, getPreFilteredRowModel.
  destruct (getCoreRowModel table) as [|r l] eqn:E; [reflexivity |].
  destruct (String.eqb (globalFilter table) "") eqn:Ee.
  - apply String.eqb_eq in Ee. contradiction.
  - destruct (globallyFilterableColumns table); [contradiction | reflexivity].
Qed.

(** Whatever the filter text, the filtered rows are core rows in their
    core order. *)
Lemma filtered_is_bool_filter :
  exists f, getFilteredRowModel table = List.filter f (getCoreRowModel table).
Proof.
  unfold getFilteredRowModel, getPreFilteredRowModel.
  assert (Hall : List.filter (fun _ : Row => true) (getCoreRowModel table)
                 = getCoreRowModel table).
  { induction (getCoreRowModel table) as [|x l IH]; simpl; congruence. }
  destruct (getCoreRowModel table) as [|r l] eqn:E.
  - exists (fun _ => true). reflexivity.
  - destruct (String.eqb _ _); [by exists (fun _ => true) |].
    destruct (globallyFilterableColumns table);
      [by exists (fun _ => true) | by eexists].
Qed.

End GlobalFilter.

(** ** Cells that are falsy *)

(** C10: on a row whose value in the tested column is falsy ([null],
    [undefined], [0], [false] or the empty string), [fuzzyFilter] answers
    [false] for every search text, the empty one included. *)
Theorem fuzzyFilter_falsy_cell (row : Row) (columnId : string) :
  getValue row columnId = Js.Null \/ getValue row columnId = Js.Undefined
  \/ getValue row columnId = Js.Number 0
  \/ getValue row columnId = Js.Boolean false
  \/ getValue row columnId = Js.Str "" ->
  forall value : string, fuzzyFilter row columnId value = false.
Proof.
  intros H value. rewrite fuzzyFilter_unfold.
  assert (Hf : Js.truthy (getValue row columnId) = false).
  { apply truthy_false_cases. tauto. }
  rewrite Hf. reflexivity.
Qed.

(** Searching "0" does not match a cell that holds the number 0, although
    its stringified value contains the needle; nor does the empty text. *)
Lemma fuzzyFilter_falsy_cell_zero :
  let row := {| index := 0; original := {[ "n" := Js.Number 0 ]} |} in
  containsIgnoreCase (getValue row "n") "0" = true
  /\ fuzzyFilter row "n" "0" = false
  /\ fuzzyFilter row "n" "" = false.
Proof.
  intros row. split; [reflexivity |].
  split; apply (fuzzyFilter_falsy_cell row "n"); right; right; left; reflexivity.
Defined.

(** ** What the global filter keeps *)

Lemma passesGlobalFilter_fuzzy {W : Type} (table : Options W) (row : Row) :
  globalFilterFn table = fuzzyFilter ->
  passesGlobalFilter table row = true <->
  exists c, c ∈ globallyFilterableColumns table
            /\ Js.truthy (getValue row (col_id c)) = true
            /\ containsIgnoreCase (getValue row (col_id c)) (globalFilter table) = true.
Proof.
  intros Hfn. unfold passesGlobalFilter. rewrite existsb_elem_of, Hfn.
  split; intros (c & Hc & H); exists c; (split; [done |]).
  - rewrite fuzzyFilter_unfold in H. by apply andb_true_iff in H.
  - rewrite fuzzyFilter_unfold. by apply andb_true_iff.
Qed.

(** C3, as the code has it by design: the guard of [fuzzyFilter] keeps
    [null] and [undefined] cells from matching.  With a non-empty filter
    text and a filterable column, a row that is kept has a filterable
    column whose value is neither [null] nor [undefined] and whose
    stringified form contains the text, letter case ignored; and a row is
    kept whenever a filterable column holds a non-empty string, a
    non-zero number or [true] whose stringified form contains the text.
    With the empty text, or when no column is filterable, every row is
    kept; and a needle found in such a field of one row and in no
    filterable field of any other row leaves exactly that row. *)
Theorem global_filter_keeps_matching_rows
    (props : TableProps) (st : TableState) (ctx : gmap string Z) :
  let table := useReactTable props st ctx in
  let text := st_globalFilter st in
  (text = "" -> getFilteredRowModel table = getCoreRowModel table)
  /\ (globallyFilterableColumns table = [] ->
      getFilteredRowModel table = getCoreRowModel table)
  /\ (text <> "" -> globallyFilterableColumns table <> [] ->
      forall row,
        (row ∈ getFilteredRowModel table ->
         row ∈ getCoreRowModel table
         /\ exists c, c ∈ globallyFilterableColumns table
                      /\ getValue row (col_id c) <> Js.Null
                      /\ getValue row (col_id c) <> Js.Undefined
                      /\ containsIgnoreCase (getValue row (col_id c)) text = true)
        /\ (row ∈ getCoreRowModel table ->
            (exists c, c ∈ globallyFilterableColumns table
                       /\ Js.truthy (getValue row (col_id c)) = true
                       /\ containsIgnoreCase (getValue row (col_id c)) text = true) ->
            row ∈ getFilteredRowModel table))
  /\ (text <> "" ->
      forall l1 r l2 c,
        getCoreRowModel table = l1 ++ r :: l2 ->
        c ∈ globallyFilterableColumns table ->
        Js.truthy (getValue r (col_id c)) = true ->
        containsIgnoreCase (getValue r (col_id c)) text = true ->
        (forall r' c', r' ∈ l1 ++ l2 -> c' ∈ globallyFilterableColumns table ->
                       containsIgnoreCase (getValue r' (col_id c')) text = false) ->
        getFilteredRowModel table = [r]).
Proof.
  intros table text.
  assert (Hfn : globalFilterFn table = fuzzyFilter) by reflexivity.
  assert (Htext : globalFilter table = text) by reflexivity.
  split; [intros Ht; apply filtered_of_empty_text; by rewrite Htext |].
  split; [apply filtered_of_no_filterable_column |].
  split.
  - intros Ht Hc row. rewrite filtered_of_text by (by rewrite ?Htext).
    rewrite elem_of_bool_filter, (passesGlobalFilter_fuzzy table row Hfn).
    rewrite Htext. split.
    + intros [Hrow (c & Hc' & Htruthy & Hhit)]. split; [exact Hrow |].
      exists c. split; [exact Hc' |].
      split; [intros E; rewrite E in Htruthy; discriminate |].
      split; [intros E; rewrite E in Htruthy; discriminate | exact Hhit].
    + intros Hrow Hex. by split.
  - intros Ht l1 r l2 c Hcore Hc Htruthy Hhit Hothers.
    assert (Hne : globallyFilterableColumns table <> []).
    { intros E. rewrite E in Hc. by apply not_elem_of_nil in Hc. }
    rewrite filtered_of_text, Hcore by (by rewrite ?Htext).
    assert (Hmiss : forall r', r' ∈ l1 ++ l2 -> passesGlobalFilter table r' = false).
    { intros r' Hr'. apply not_true_is_false.
      rewrite (passesGlobalFilter_fuzzy table r' Hfn).
      intros (c' & Hc' & _ & Hhit').
      rewrite Htext, (Hothers r' c' Hr' Hc') in Hhit'. discriminate. }
    assert (Hr : passesGlobalFilter table r = true).
    { apply (passesGlobalFilter_fuzzy table r Hfn). exists c. by rewrite Htext. }
    rewrite List.filter_app. simpl. rewrite Hr.
    rewrite (bool_filter_none _ l1), (bool_filter_none _ l2); [reflexivity | |].
    + intros x Hx. apply Hmiss, elem_of_app. by right.
    + intros x Hx. apply Hmiss, elem_of_app. by left.
Qed.

(** Searching "ALP" in the five items keeps the item named "Alpha". *)
Lemma global_filter_keeps_matching_rows_witness :
  getFilteredRowModel (useReactTable fiveItems (searching "ALP") ∅)
  = [ {| index := 0; original := item 1 "Alpha" |} ].
Proof.
  pose proof (global_filter_keeps_matching_rows fiveItems (searching "ALP") ∅)
    as (_ & _ & _ & H).
  apply (H ltac:(discriminate) []
           {| index := 0; original := item 1 "Alpha" |}
           [ {| index := 1; original := item 2 "beta" |};
             {| index := 2; original := item 3 "Gamma" |};
             {| index := 3; original := item 4 "delta" |};
             {| index := 4; original := item 5 "Epsilon" |} ]
           (textColumn "name")).
  - reflexivity.
  - vm_compute. apply list_elem_of_further, list_elem_of_here.
  - reflexivity.
  - reflexivity.
  - intros r' c' Hr' Hc'.
    assert (Hcs : c' = numberColumn "id" \/ c' = textColumn "name").
    { vm_compute in Hc'. apply elem_of_cons in Hc' as [-> | Hc']; [by left |].
      apply list_elem_of_singleton in Hc' as ->. by right. }
    simpl in Hr'. repeat (apply elem_of_cons in Hr' as [-> | Hr']);
      [ | | | | by apply not_elem_of_nil in Hr'];
      destruct Hcs as [-> | ->]; reflexivity.
Defined.

(** C3, as stated, fails on a [null] cell: in [nullNameTable] the column
    "name" is filterable, the stringified value "null" of the second
    row's cell contains the needle "null", and the row is filtered out. *)
Lemma global_filter_drops_null_cell :
  ~ (forall (props : TableProps) (st : TableState) (ctx : gmap string Z) (row : Row),
        let table := useReactTable props st ctx in
        row ∈ getCoreRowModel table ->
        (row ∈ getFilteredRowModel table <->
         exists c, c ∈ globallyFilterableColumns table
                   /\ containsIgnoreCase (getValue row (col_id c))
                                         (st_globalFilter st) = true)).
Proof.
  intros H.
  specialize (H nullNameTable (searching "null") ∅
                {| index := 1; original := {[ "name" := Js.Null ]} |}).
  simpl in H.
  assert (Hin : {| index := 1; original := {[ "name" := Js.Null ]} |}
                ∈ getCoreRowModel (useReactTable nullNameTable (searching "null") ∅)).
  { apply list_elem_of_further, list_elem_of_here. }
  apply H in Hin. destruct Hin as [_ Hback].
  assert (Hkept : {| index := 1; original := {[ "name" := Js.Null ]} |}
                  ∈ getFilteredRowModel
                      (useReactTable nullNameTable (searching "null") ∅)).
  { apply Hback. exists (textColumn "name"). split; [| reflexivity].
    vm_compute. apply list_elem_of_here. }
  vm_compute in Hkept. by apply not_elem_of_nil in Hkept.
Qed.

(** The guard meant for [null] and [undefined] also drops a cell that
    holds the number 0: its stringified value "0" contains the needle
    "0", the column is filterable, and the row is filtered out. *)
Lemma zero_cell_is_dropped :
  ~ (forall (props : TableProps) (st : TableState) (ctx : gmap string Z) (row : Row),
        let table := useReactTable props st ctx in
        row ∈ getCoreRowModel table ->
        (row ∈ getFilteredRowModel table <->
         exists c, c ∈ globallyFilterableColumns table
                   /\ containsIgnoreCase (getValue row (col_id c))
                                         (st_globalFilter st) = true)).
Proof.
  intros H.
  specialize (H zeroTable (searching "0") ∅
                {| index := 0; original := {[ "n" := Js.Number 0 ]} |}).
  simpl in H.
  assert (Hin : {| index := 0; original := {[ "n" := Js.Number 0 ]} |}
                ∈ getCoreRowModel (useReactTable zeroTable (searching "0") ∅)).
  { apply list_elem_of_here. }
  apply H in Hin. destruct Hin as [_ Hback].
  assert (Hkept : {| index := 0; original := {[ "n" := Js.Number 0 ]} |}
                  ∈ getFilteredRowModel (useReactTable zeroTable (searching "0") ∅)).
  { apply Hback. exists (numberColumn "n"). split; [| reflexivity].
    vm_compute. apply list_elem_of_here. }
  vm_compute in Hkept. by apply not_elem_of_nil in Hkept.
Qed.

(** ** The stable sort *)

Section SortFacts.
Context {A : Type}.
Variable compareFn : A -> A -> Z.

Lemma insert_sorted_perm (x : A) (l : list A) :
  Js.insert_sorted compareFn x l ≡ₚ x :: l.
Proof.
  induction l as [|y l IH]; simpl; [reflexivity |].
  destruct (compareFn x y <=? 0); [reflexivity |].
  rewrite IH. apply Permutation_swap.
Qed.

Lemma sort_perm (l : list A) : Js.sort compareFn l ≡ₚ l.
Proof.
  induction l as [|x l IH]; simpl; [reflexivity |].
  rewrite insert_sorted_perm. by rewrite IH.
Qed.

Lemma sort_length (l : list A) : length (Js.sort compareFn l) = length l.
Proof. apply Permutation_length, sort_perm. Qed.

Lemma before_insert_old (x a b : A) (l : list A) :
  before a b l -> before a b (Js.insert_sorted compareFn x l).
Proof.
  induction 1 as [l Hb | y l Hab IH]; simpl.
  - destruct (compareFn x a <=? 0).
    + apply before_further, before_here, Hb.
    + apply before_here. rewrite insert_sorted_perm. by apply list_elem_of_further.
  - destruct (compareFn x y <=? 0).
    + by apply before_further, before_further.
    + by apply before_further.
Qed.

Lemma before_insert_new (x b : A) (l : list A) :
  b ∈ l -> compareFn x b <= 0 -> before x b (Js.insert_sorted compareFn x l).
Proof.
  intros Hb Hle. induction l as [|y l IH]; simpl.
  - by apply not_elem_of_nil in Hb.
  - destruct (compareFn x y <=? 0) eqn:E.
    + by apply before_here.
    + apply before_further, IH.
      apply elem_of_cons in Hb as [-> | Hb]; [| done].
      apply Z.leb_gt in E. lia.
Qed.

(** Stability: a row that precedes another one and does not compare
    greater than it still precedes it after the sort. *)
Lemma sort_stable (a b : A) (l : list A) :
  before a b l -> compareFn a b <= 0 -> before a b (Js.sort compareFn l).
Proof.
  intros Hab Hle. induction Hab as [l Hb | y l Hab IH]; simpl.
  - apply before_insert_new; [| done]. by rewrite sort_perm.
  - by apply before_insert_old.
Qed.

Section Sorted.
(** For a comparator that is total and transitive the result is in
    order. *)
Hypothesis compare_total : forall x y, 0 < compareFn x y -> compareFn y x <= 0.
Hypothesis compare_trans :
  forall x y z, compareFn x y <= 0 -> compareFn y z <= 0 -> compareFn x z <= 0.

Lemma insert_sorted_sorted (x : A) (l : list A) :
  StronglySorted (fun a b => compareFn a b <= 0) l ->
  StronglySorted (fun a b => compareFn a b <= 0) (Js.insert_sorted compareFn x l).
Proof.
  induction 1 as [|y l Hsorted IH Hall]; simpl.
  - repeat constructor.
  - destruct (compareFn x y <=? 0) eqn:E.
    + apply Z.leb_le in E. constructor; [by constructor |].
      constructor; [done |].
      eapply Forall_impl; [exact Hall |]. intros z Hz. by eapply compare_trans.
    + apply Z.leb_gt in E. constructor; [done |].
      rewrite insert_sorted_perm. constructor; [by apply compare_total | done].
Qed.

Lemma sort_sorted (l : list A) :
  StronglySorted (fun a b => compareFn a b <= 0) (Js.sort compareFn l).
Proof.
  induction l as [|x l IH]; simpl; [constructor |].
  by apply insert_sorted_sorted.
Qed.
End Sorted.

End SortFacts.

Lemma before_bool_filter {A : Type} (f : A -> bool) (a b : A) (l : list A) :
  before a b (List.filter f l) -> before a b l.
Proof.
  induction l as [|y l IH]; simpl; [done |].
  destruct (f y).
  - inversion 1 as [l' Hb | y' l' Hab]; subst.
    + apply before_here. by apply elem_of_bool_filter in Hb as [Hb _].
    + by apply before_further, IH.
  - intros H. by apply before_further, IH.
Qed.

Lemma before_lookup {A : Type} (a b : A) (l : list A) :
  before a b l ->
  exists i j : nat, (i < j)%nat /\ l !! i = Some a /\ l !! j = Some b.
Proof.
  induction 1 as [l Hb | y l Hab (i & j & Hij & Hi & Hj)].
  - apply list_elem_of_lookup in Hb as [j Hj].
    exists 0%nat, (S j). split; [lia | done].
  - exists (S i), (S j). split; [lia | done].
Qed.

Section Rows.
Context {W : Type}.
Variable table : Options W.

Lemma core_row_index (i : nat) (row : Row) :
  getCoreRowModel table !! i = Some row -> index row = Z.of_nat i.
Proof.
  unfold getCoreRowModel. rewrite list_lookup_imap.
  destruct (data table !! i); simpl; [| done].
  intros [= <-]. reflexivity.
Qed.

Lemma core_length : length (getCoreRowModel table) = length (data table).
Proof. apply length_imap. Qed.

(** The core rows are the records of [data], one row each, in order. *)
Lemma core_original : original <$> getCoreRowModel table = data table.
Proof.
  apply list_eq. intros i. unfold getCoreRowModel.
  rewrite list_lookup_fmap, list_lookup_imap.
  by destruct (data table !! i).
Qed.

(** Rows keep their core order through the filter, so a row that precedes
    another one in the filtered sequence has the smaller index. *)
Lemma filtered_before_index (a b : Row) :
  before a b (getFilteredRowModel table) -> index a < index b.
Proof.
  destruct (filtered_is_bool_filter table) as [f ->].
  intros H. apply before_bool_filter, before_lookup in H
    as (i & j & Hij & Hi & Hj).
  rewrite (core_row_index i a Hi), (core_row_index j b Hj). lia.
Qed.

Lemma compareBy_ties (entries : list ColumnSort) (a b : Row) :
  (forall e, e ∈ entries -> compareEntry table e a b = None) ->
  compareBy table entries a b = index a - index b.
Proof.
  induction entries as [|e entries IH]; intros H; simpl; [reflexivity |].
  rewrite (H e) by apply list_elem_of_here.
  apply IH. intros e' He'. apply H. by apply list_elem_of_further.
Qed.

Lemma sorted_unfold :
  getSortedRowModel table
  = match sorting table with
    | [] => getFilteredRowModel table
    | _ :: _ => Js.sort (compareRows table) (getFilteredRowModel table)
    end.
Proof.
  unfold getSortedRowModel, getPreSortedRowModel.
  destruct (getFilteredRowModel table), (sorting table); reflexivity.
Qed.

Lemma sorted_perm : getSortedRowModel table ≡ₚ getFilteredRowModel table.
Proof.
  rewrite sorted_unfold. destruct (sorting table); [reflexivity |].
  apply sort_perm.
Qed.

Lemma row_count : getRowCount table = Z.of_nat (length (getFilteredRowModel table)).
Proof.
  unfold getRowCount, getPrePaginationRowModel.
  by rewrite (Permutation_length sorted_perm).
Qed.

End Rows.

(** ** Page count and page slice *)

Lemma ceil_div_is_ceiling (n d : Z) :
  0 < d -> (Js.ceil_div n d - 1) * d < n <= Js.ceil_div n d * d.
Proof.
  intros Hd. unfold Js.ceil_div.
  pose proof (Z.div_mod (n + d - 1) d ltac:(lia)) as Hdm.
  pose proof (Z.mod_pos_bound (n + d - 1) d Hd) as Hmod.
  nia.
Qed.

Lemma ceil_div_zero (d : Z) : 0 < d -> Js.ceil_div 0 d = 0.
Proof.
  intros Hd. pose proof (ceil_div_is_ceiling 0 d Hd). nia.
Qed.

Lemma ceil_div_pos (n d : Z) : 0 < d -> 0 < n -> 1 <= Js.ceil_div n d.
Proof.
  intros Hd Hn. pose proof (ceil_div_is_ceiling n d Hd). nia.
Qed.

Lemma slice_nil {A : Type} (start stop : Z) : Js.slice (@nil A) start stop = [].
Proof. unfold Js.slice. by rewrite drop_nil, take_nil. Qed.

Lemma slice_length {A : Type} (l : list A) (start stop : Z) :
  0 <= start -> 0 <= stop ->
  Z.of_nat (length (Js.slice l start stop))
  = Z.max 0 (Z.min stop (Z.of_nat (length l)) - Z.min start (Z.of_nat (length l))).
Proof.
  intros Hs He. unfold Js.slice.
  destruct (start <? 0) eqn:E1; [apply Z.ltb_lt in E1; lia |].
  destruct (stop <? 0) eqn:E2; [apply Z.ltb_lt in E2; lia |].
  rewrite length_take, length_drop. lia.
Qed.

Section PageFacts.
Context {W : Type}.
Variable table : Options W.

Lemma pagination_unfold :
  getPaginationRowModel table
  = Js.slice (getSortedRowModel table)
      (pageIndex (pagination table) * pageSize (pagination table))
      ((pageIndex (pagination table) + 1) * pageSize (pagination table)).
Proof.
  unfold getPaginationRowModel, getPrePaginationRowModel.
  destruct (getSortedRowModel table) as [|r l] eqn:E.
  - by rewrite slice_nil.
  - f_equal; lia.
Qed.

Lemma page_length :
  0 < pageSize (pagination table) -> 0 <= pageIndex (pagination table) ->
  let n := Z.of_nat (length (getFilteredRowModel table)) in
  let offset := pageIndex (pagination table) * pageSize (pagination table) in
  Z.of_nat (length (getRowModel table))
  = if 0 <=? n - offset then Z.min (pageSize (pagination table)) (n - offset)
    else 0.
Proof.
  intros Hps Hpi n offset. unfold getRowModel.
  rewrite pagination_unfold, slice_length by nia.
  rewrite (Permutation_length (sorted_perm table)).
  fold n. fold offset.
  replace ((pageIndex (pagination table) + 1) * pageSize (pagination table))
    with (offset + pageSize (pagination table)) by (unfold offset; lia).
  assert (0 <= offset) by (unfold offset; nia).
  destruct (0 <=? n - offset) eqn:E;
    [apply Z.leb_le in E | apply Z.leb_gt in E]; lia.
Qed.

End PageFacts.

(** C4, as the code has it: for a positive page size the page count is the
    ceiling of [filteredRowCount / pageSize], which is 0 (not 1) when no
    row passes the filter and at least 1 otherwise; for a non-negative page
    index the page shown has [min (pageSize, filteredRowCount - pageIndex *
    pageSize)] rows when that is non-negative, and none otherwise. *)
Theorem page_count_and_slice_length
    (props : TableProps) (st : TableState) (ctx : gmap string Z) :
  let n := Z.of_nat (length (getFilteredRowModel (useReactTable props st ctx))) in
  let size := props_pageSize props in
  let page := PageStore.projectPageIndex ctx in
  0 < size -> 0 <= page ->
  totalPages props st ctx = Js.ceil_div n size
  /\ (totalPages props st ctx - 1) * size < n <= totalPages props st ctx * size
  /\ (n = 0 -> totalPages props st ctx = 0)
  /\ (0 < n -> totalPages props st ctx = Z.max 1 (Js.ceil_div n size))
  /\ Z.of_nat (length (bodyRows props st ctx))
     = if 0 <=? n - page * size then Z.min size (n - page * size) else 0.
Proof.
  intros n size page Hsize Hpage.
  assert (Hcount : totalPages props st ctx = Js.ceil_div n size).
  { unfold totalPages, getPageCount. by rewrite row_count. }
  rewrite Hcount. split; [reflexivity |].
  split; [by apply ceil_div_is_ceiling |].
  split; [intros ->; by apply ceil_div_zero |].
  split; [intros Hn; pose proof (ceil_div_pos n size Hsize Hn); lia |].
  apply (page_length (useReactTable props st ctx)); assumption.
Qed.

(** The five items, two to a page, on page 2: three pages, one row shown. *)
Lemma page_count_and_slice_length_witness :
  totalPages fiveItems initialState (PageStore.setProjectPageIndex 2 ∅) = 3
  /\ length (bodyRows fiveItems initialState (PageStore.setProjectPageIndex 2 ∅))
     = 1%nat.
Proof.
  pose proof (page_count_and_slice_length fiveItems initialState
                (PageStore.setProjectPageIndex 2 ∅)
                ltac:(reflexivity) ltac:(discriminate))
    as (Hcount & _ & _ & _ & Hlen).
  split; [exact Hcount | apply Nat2Z.inj; exact Hlen].
Defined.

(** C4, as stated, fails on a table without rows: the page count is 0, not
    [max (1, ceil (0 / pageSize)) = 1]. *)
Lemma page_count_of_no_rows_is_zero :
  ~ (forall (props : TableProps) (st : TableState) (ctx : gmap string Z),
        0 < props_pageSize props ->
        totalPages props st ctx
        = Z.max 1 (Js.ceil_div
                     (Z.of_nat (length (getFilteredRowModel (useReactTable props st ctx))))
                     (props_pageSize props))).
Proof.
  intros H. specialize (H emptyTable initialState ∅ ltac:(reflexivity)).
  vm_compute in H. discriminate.
Qed.

(** ** The pipeline *)

(** The rows [{n:3}, {n:1}, {n:2}], no filter text, sorted by [n]
    ascending, two to a page: page 0 shows 1 and 2, page 1 shows 3, and
    there are two pages. *)
Lemma pipeline_three_numbers :
  let st := sortedBy "n" false in
  (fun r => getValue r "n") <$> bodyRows threeNumbers st ∅
  = [Js.Number 1; Js.Number 2]
  /\ (fun r => getValue r "n")
       <$> bodyRows threeNumbers st (PageStore.setProjectPageIndex 1 ∅)
     = [Js.Number 3]
  /\ totalPages threeNumbers st ∅ = 2.
Proof. repeat split; reflexivity. Qed.

(** ** The summary line *)

(** C9: with 25 rows, 10 to a page, no filter text and no sort, there are 3
    pages; on page 0 the summary reads "Showing 1 to 10 of 25 results" and
    on page 2, the last one, "Showing 21 to 25 of 25 results". *)
Theorem summary_of_25_rows
    (rows : list (gmap string Js.value)) (cols : list ColumnDef)
    (ctx : gmap string Z) :
  let props := {| props_data := rows; props_columns := cols;
                  props_pageSize := 10 |} in
  length rows = 25%nat ->
  totalPages props initialState ctx = 3
  /\ (PageStore.projectPageIndex ctx = 0 ->
      summaryText props initialState ctx = "Showing 1 to 10 of 25 results")
  /\ (PageStore.projectPageIndex ctx = 2 ->
      summaryText props initialState ctx = "Showing 21 to 25 of 25 results").
Proof.
  intros props Hlen.
  assert (Hn : length (getFilteredRowModel (useReactTable props initialState ctx))
               = 25%nat).
  { rewrite filtered_of_empty_text by reflexivity. by rewrite core_length. }
  assert (Hcount : totalPages props initialState ctx = 3).
  { unfold totalPages, getPageCount. rewrite row_count, Hn. reflexivity. }
  split; [exact Hcount |].
  split; intros Hpage; unfold summaryText, showPagination, currentPage;
    rewrite Hcount, Hn; simpl pagination; simpl pageIndex; rewrite Hpage;
    reflexivity.
Qed.

Lemma summary_of_25_rows_witness :
  totalPages twentyFive initialState ∅ = 3
  /\ summaryText twentyFive initialState ∅ = "Showing 1 to 10 of 25 results"
  /\ summaryText twentyFive initialState (PageStore.setProjectPageIndex 2 ∅)
     = "Showing 21 to 25 of 25 results".
Proof.
  pose proof (summary_of_25_rows (props_data twentyFive) itemColumns ∅
                ltac:(reflexivity)) as (H1 & H2 & _).
  pose proof (summary_of_25_rows (props_data twentyFive) itemColumns
                (PageStore.setProjectPageIndex 2 ∅)
                ltac:(reflexivity)) as (_ & _ & H3).
  split; [exact H1 |].
  split; [exact (H2 ltac:(reflexivity)) | exact (H3 ltac:(reflexivity))].
Defined.

(** ** The page index under filter changes *)

Lemma store_get_set_same (store : gmap string Z) (id : string) (n : Z) :
  PageStore.getPageIndex (PageStore.setPageIndex store id n) id = n.
Proof.
  unfold PageStore.getPageIndex, PageStore.setPageIndex.
  by rewrite lookup_insert_eq.
Qed.

Lemma store_get_set_other (store : gmap string Z) (id id' : string) (n : Z) :
  id <> id' ->
  PageStore.getPageIndex (PageStore.setPageIndex store id n) id'
  = PageStore.getPageIndex store id'.
Proof.
  intros Hne. unfold PageStore.getPageIndex, PageStore.setPageIndex.
  by rewrite lookup_insert_ne.
Qed.

Lemma store_unseen (id : string) : PageStore.getPageIndex ∅ id = 0.
Proof. unfold PageStore.getPageIndex. by rewrite lookup_empty. Qed.

Lemma projectPageIndex_set (store : gmap string Z) (n : Z) :
  PageStore.projectPageIndex (PageStore.setProjectPageIndex n store) = n.
Proof. apply store_get_set_same. Qed.

(** What the engine's [setPageIndex] does through the component's
    [onPaginationChange]: the clamped index is written to the store. *)
Lemma setPageIndex_writes
    (props : TableProps) (st : TableState) (ctx ctx0 : gmap string Z)
    (updater : Updater Z) :
  setPageIndex (useReactTable props st ctx) updater ctx0
  = PageStore.setProjectPageIndex
      (Z.max 0 (Z.min (functionalUpdate updater (PageStore.projectPageIndex ctx))
                      MAX_SAFE_INTEGER))
      ctx0.
Proof. reflexivity. Qed.

(** With the engine's default ([autoResetPageIndex] left out) a change of
    the filtered rows would send the page index back to 0. *)
Lemma autoReset_default_resets
    (props : TableProps) (st : TableState) (ctx : gmap string Z) :
  let table := useReactTable props st ctx in
  let table_default :=
    {| data := data table; columns := columns table; sorting := sorting table;
       globalFilter := globalFilter table; pagination := pagination table;
       globalFilterFn := globalFilterFn table; autoResetPageIndex := None;
       onPaginationChange := onPaginationChange table |} in
  PageStore.projectPageIndex (_autoResetPageIndex table_default ctx) = 0.
Proof. intros table table_default. apply projectPageIndex_set. Qed.

Lemma setGlobalFilter_unfold
    (props : TableProps) (text : string) (st : TableState) (ctx : gmap string Z) :
  setGlobalFilter props text st ctx
  = ({| st_sorting := st_sorting st; st_globalFilter := text |}, ctx).
Proof. reflexivity. Qed.

Lemma typeSearch_store
    (props : TableProps) (texts : list string) (st : TableState)
    (ctx : gmap string Z) :
  snd (typeSearch props texts st ctx) = ctx.
Proof.
  unfold typeSearch. revert st. induction texts as [|text texts IH]; intros st.
  - reflexivity.
  - simpl. rewrite setGlobalFilter_unfold. apply IH.
Qed.

(** C8: [setGlobalFilter] does not by itself change the page index: the
    component switches the auto-reset off, so after a filter change, and
    after any sequence of filter changes, the store, and with it the page
    index, is what it was before. *)
Theorem setGlobalFilter_keeps_page_index
    (props : TableProps) (st : TableState) (ctx : gmap string Z) :
  (forall text : string,
      let (st', ctx') := setGlobalFilter props text st ctx in
      st_globalFilter st' = text
      /\ ctx' = ctx
      /\ currentPage props st' ctx' = currentPage props st ctx)
  /\ (forall texts : list string,
        let (st', ctx') := typeSearch props texts st ctx in
        ctx' = ctx /\ currentPage props st' ctx' = currentPage props st ctx).
Proof.
  split.
  - intros text. rewrite setGlobalFilter_unfold. repeat split; reflexivity.
  - intros texts. pose proof (typeSearch_store props texts st ctx) as Hstore.
    destruct (typeSearch props texts st ctx) as [st' ctx']. simpl in Hstore.
    subst ctx'. split; reflexivity.
Qed.

(** [setSorting] likewise. *)
Lemma setSorting_keeps_page_index
    (props : TableProps) (sorting' : list ColumnSort) (st : TableState)
    (ctx : gmap string Z) :
  let (st', ctx') := setSorting props sorting' st ctx in
  ctx' = ctx /\ currentPage props st' ctx' = currentPage props st ctx.
Proof. simpl. split; reflexivity. Qed.

(** C2, as the code has it: when a filter change shrinks the filtered rows,
    the page index stays what it was (no clamping); the page shown is empty
    exactly when [pageIndex * pageSize] is at or beyond the filtered row
    count, whether or not earlier pages hold rows. *)
Theorem shrunk_filter_keeps_page_index
    (props : TableProps) (text : string) (st : TableState) (ctx : gmap string Z) :
  let (st', ctx') := setGlobalFilter props text st ctx in
  let n' := Z.of_nat (length (getFilteredRowModel (useReactTable props st' ctx'))) in
  0 < props_pageSize props -> 0 <= PageStore.projectPageIndex ctx ->
  PageStore.projectPageIndex ctx' = PageStore.projectPageIndex ctx
  /\ (bodyRows props st' ctx' = []
      <-> n' <= PageStore.projectPageIndex ctx * props_pageSize props).
Proof.
  rewrite setGlobalFilter_unfold.
  set (st' := {| st_sorting := st_sorting st; st_globalFilter := text |}).
  intros n' Hsize Hpage. split; [reflexivity |].
  pose proof (page_length (useReactTable props st' ctx) Hsize Hpage) as Hlen.
  simpl in Hlen. fold (bodyRows props st' ctx) in Hlen. fold n' in Hlen.
  set (offset := PageStore.projectPageIndex ctx * props_pageSize props) in *.
  rewrite <- length_zero_iff_nil.
  destruct (0 <=? n' - offset) eqn:E;
    [apply Z.leb_le in E | apply Z.leb_gt in E]; lia.
Qed.

(** The five items, two to a page, on page 2; the search "alp" leaves one
    row: the page index is still 2 and the page shown is empty. *)
Lemma shrunk_filter_keeps_page_index_witness :
  let ctx := PageStore.setProjectPageIndex 2 ∅ in
  PageStore.projectPageIndex ctx = 2
  /\ bodyRows fiveItems (searching "alp") ctx = [].
Proof.
  intros ctx.
  pose proof (shrunk_filter_keeps_page_index fiveItems "alp" initialState ctx
                ltac:(reflexivity) ltac:(discriminate)) as [H1 H2].
  split; [exact H1 |].
  apply H2. discriminate.
Defined.

(** C2, as stated, fails: after the search "alp" the filtered rows are not
    empty (page 0 holds "Alpha"), yet [pageIndex * pageSize = 4] is not
    below the filtered row count 1, and the page shown is empty. *)
Lemma shrunk_filter_shows_empty_page :
  ~ (forall (props : TableProps) (text : string) (st : TableState)
            (ctx : gmap string Z),
        let (st', ctx') := setGlobalFilter props text st ctx in
        let filtered' := getFilteredRowModel (useReactTable props st' ctx') in
        0 < props_pageSize props -> 0 <= PageStore.projectPageIndex ctx ->
        filtered' <> [] ->
        0 <= PageStore.projectPageIndex ctx' * props_pageSize props
          < Z.of_nat (length filtered')
        \/ bodyRows props st' ctx' <> []).
Proof.
  intros H.
  specialize (H fiveItems "alp" initialState (PageStore.setProjectPageIndex 2 ∅)).
  simpl in H.
  destruct (H ltac:(reflexivity) ltac:(discriminate) ltac:(discriminate))
    as [[_ Hlt] | Hne].
  - vm_compute in Hlt. discriminate.
  - apply Hne. reflexivity.
Qed.

(** ** Page navigation *)

Section Navigation.
Variable props : TableProps.
Variable st : TableState.
Variable ctx : gmap string Z.

Let table := useReactTable props st ctx.
Let page := PageStore.projectPageIndex ctx.

Lemma canNextPage_unfold :
  0 < props_pageSize props -> 0 <= page ->
  getCanNextPage table = (page <? totalPages props st ctx - 1).
Proof.
  intros Hsize Hpage. unfold getCanNextPage.
  change (getPageCount table) with (totalPages props st ctx).
  change (pageIndex (pagination table)) with page.
  assert (Hcount : 0 <= totalPages props st ctx).
  { unfold totalPages, getPageCount. rewrite row_count.
    pose proof (ceil_div_is_ceiling
                  (Z.of_nat (length (getFilteredRowModel (useReactTable props st ctx))))
                  (props_pageSize props) Hsize) as Hc.
    simpl pagination. simpl pageSize. nia. }
  destruct (totalPages props st ctx =? -1) eqn:E1; [apply Z.eqb_eq in E1; lia |].
  destruct (totalPages props st ctx =? 0) eqn:E2; [| reflexivity].
  apply Z.eqb_eq in E2. rewrite E2. symmetry. apply Z.ltb_ge. lia.
Qed.

Lemma click_disabled (b : PagerButton) :
  buttonDisabled props st ctx b = true -> clickButton props st ctx b = ctx.
Proof.
  intros H. unfold clickButton. rewrite H. by rewrite andb_false_r.
Qed.

Lemma previousPage_writes :
  previousPage table ctx
  = PageStore.setProjectPageIndex (Z.max 0 (Z.min (page - 1) MAX_SAFE_INTEGER)) ctx.
Proof. reflexivity. Qed.

Lemma nextPage_writes :
  nextPage table ctx
  = PageStore.setProjectPageIndex (Z.max 0 (Z.min (page + 1) MAX_SAFE_INTEGER)) ctx.
Proof. reflexivity. Qed.

End Navigation.

(** C7: page navigation is guarded.  [previousPage ()] at page index 0
    leaves the page index at 0; [nextPage ()] is called by the [>] button
    only, which is disabled at page index [pageCount - 1], so there the
    state stays as it is (and likewise for [>>], and for [<] and [<<] at
    index 0); the pager shows [canPreviousPage = index > 0] and
    [canNextPage = index < pageCount - 1] and disables its buttons
    accordingly. *)
Theorem navigation_is_guarded_by_the_pager
    (props : TableProps) (st : TableState) (ctx : gmap string Z) :
  let table := useReactTable props st ctx in
  let page := PageStore.projectPageIndex ctx in
  let pageCount := totalPages props st ctx in
  0 < props_pageSize props -> 0 <= page ->
  getCanPreviousPage table = (0 <? page)
  /\ getCanNextPage table = (page <? pageCount - 1)
  /\ (forall b, buttonDisabled props st ctx b
                = match b with
                  | FirstBtn | PrevBtn => negb (0 <? page)
                  | NextBtn | LastBtn => negb (page <? pageCount - 1)
                  end)
  /\ (page = 0 ->
      PageStore.projectPageIndex (previousPage table ctx) = 0
      /\ clickButton props st ctx PrevBtn = ctx
      /\ clickButton props st ctx FirstBtn = ctx)
  /\ (page = pageCount - 1 ->
      clickButton props st ctx NextBtn = ctx
      /\ clickButton props st ctx LastBtn = ctx).
Proof.
  intros table page pageCount Hsize Hpage.
  pose proof (canNextPage_unfold props st ctx Hsize Hpage) as Hnext.
  assert (Hprev : getCanPreviousPage table = (0 <? page)) by reflexivity.
  assert (Hdis : forall b, buttonDisabled props st ctx b
                = match b with
                  | FirstBtn | PrevBtn => negb (0 <? page)
                  | NextBtn | LastBtn => negb (page <? pageCount - 1)
                  end).
  { fold table page pageCount in Hnext.
    intros []; unfold buttonDisabled; fold table;
      rewrite ?Hprev, ?Hnext; reflexivity. }
  split; [exact Hprev |]. split; [exact Hnext |]. split; [exact Hdis |].
  fold table page pageCount in Hnext.
  split.
  - intros H0. split.
    + unfold table. rewrite previousPage_writes, projectPageIndex_set.
      fold page. rewrite H0. reflexivity.
    + split; apply click_disabled; rewrite Hdis, H0; reflexivity.
  - intros Hlast.
    split; apply click_disabled; rewrite Hdis; apply negb_true_iff, Z.ltb_ge; lia.
Qed.

(** The five items, two to a page: on page 2 of 3 a click on [>] changes
    nothing, and on page 0 neither does [previousPage ()]. *)
Lemma navigation_is_guarded_by_the_pager_witness :
  let last := PageStore.setProjectPageIndex 2 ∅ in
  clickButton fiveItems initialState last NextBtn = last
  /\ PageStore.projectPageIndex
       (previousPage (useReactTable fiveItems initialState ∅) ∅) = 0.
Proof.
  intros last.
  pose proof (navigation_is_guarded_by_the_pager fiveItems initialState last
                ltac:(reflexivity) ltac:(discriminate))
    as (_ & _ & _ & _ & Hlast).
  pose proof (navigation_is_guarded_by_the_pager fiveItems initialState ∅
                ltac:(reflexivity) ltac:(discriminate)) as (_ & _ & _ & Hfirst & _).
  split.
  - apply Hlast. reflexivity.
  - apply Hfirst. reflexivity.
Defined.

(** ** The page index across instances *)

Lemma useReactTable_for_projects
    (props : TableProps) (st : TableState) (store : gmap string Z) :
  useReactTable props st store
  = useReactTableFor PageStore.projectsIdentity props st store.
Proof. reflexivity. Qed.

(** What [setPageIndex] of a table mounted for a list writes. *)
Lemma setPageIndex_for_writes
    (listIdentity : string) (props : TableProps) (st : TableState)
    (store store0 : gmap string Z) (updater : Updater Z) :
  setPageIndex (useReactTableFor listIdentity props st store) updater store0
  = PageStore.setPageIndexFor listIdentity
      (Z.max 0 (Z.min (functionalUpdate updater
                         (PageStore.pageIndexFor listIdentity store))
                      MAX_SAFE_INTEGER))
      store0.
Proof. reflexivity. Qed.

(** C1: the page index is kept in a store outside the table, one counter
    for each logical list.  After the page index of a list has been set
    to 2 through a table of that list, a freshly mounted table of the
    same list shows page index 2, whatever its rows, columns and page
    size, while a table of another list shows the index that list had
    before: 0 for a list the store has not seen. *)
Theorem page_index_lives_in_the_store
    (listIdentity other : string) (props : TableProps) (st : TableState)
    (store : gmap string Z) (props' : TableProps) :
  let store' :=
    setPageIndex (useReactTableFor listIdentity props st store) (Value 2) store in
  other <> listIdentity ->
  pageIndex (pagination (useReactTableFor listIdentity props' initialState store'))
  = 2
  /\ pageIndex (pagination (useReactTableFor other props' initialState store'))
     = pageIndex (pagination (useReactTableFor other props' initialState store))
  /\ (store !! other = None ->
      pageIndex (pagination (useReactTableFor other props' initialState store'))
      = 0).
Proof.
  intros store' Hother. unfold store'. rewrite setPageIndex_for_writes.
  cbn [pagination useReactTableFor pageIndex functionalUpdate].
  unfold PageStore.pageIndexFor, PageStore.setPageIndexFor.
  split; [| split].
  - by rewrite store_get_set_same.
  - by rewrite store_get_set_other.
  - intros Hunseen. rewrite store_get_set_other by done.
    unfold PageStore.getPageIndex. by rewrite Hunseen.
Qed.

(** Page 2 set for "projects": a fresh table of "projects" shows page 2, a
    table of "tasks-7" page 0. *)
Lemma page_index_lives_in_the_store_witness :
  let store' :=
    setPageIndex (useReactTableFor "projects" projectsTable initialState ∅)
                 (Value 2) ∅ in
  pageIndex (pagination (useReactTableFor "projects" projectsTable initialState store'))
  = 2
  /\ pageIndex (pagination (useReactTableFor "tasks-7" tasks7Table initialState store'))
     = 0.
Proof.
  intros store'.
  pose proof (page_index_lives_in_the_store "projects" "tasks-7" projectsTable
                initialState ∅ projectsTable ltac:(discriminate)) as [H1 _].
  pose proof (page_index_lives_in_the_store "projects" "tasks-7" projectsTable
                initialState ∅ tasks7Table ltac:(discriminate)) as (_ & _ & H3).
  split; [exact H1 | exact (H3 (lookup_empty _))].
Defined.

(** * Further properties of the component *)

(** ** The pager *)

Section Pager.
Variable props : TableProps.
Variable st : TableState.

Let size := props_pageSize props.

Lemma totalPages_store (ctx ctx' : gmap string Z) :
  totalPages props st ctx' = totalPages props st ctx.
Proof. reflexivity. Qed.

Lemma filtered_store (ctx ctx' : gmap string Z) :
  getFilteredRowModel (useReactTable props st ctx')
  = getFilteredRowModel (useReactTable props st ctx).
Proof. reflexivity. Qed.

Lemma totalPages_ceiling (ctx : gmap string Z) :
  0 < size ->
  let n := Z.of_nat (length (getFilteredRowModel (useReactTable props st ctx))) in
  (totalPages props st ctx - 1) * size < n <= totalPages props st ctx * size.
Proof.
  intros Hsize n. unfold totalPages, getPageCount. rewrite row_count.
  by apply ceil_div_is_ceiling.
Qed.

Lemma totalPages_nonneg (ctx : gmap string Z) :
  0 < size -> 0 <= totalPages props st ctx.
Proof. intros Hsize. pose proof (totalPages_ceiling ctx Hsize). simpl in *. nia. Qed.

Lemma filtered_length_le (ctx : gmap string Z) :
  (length (getFilteredRowModel (useReactTable props st ctx))
   <= length (props_data props))%nat.
Proof.
  destruct (filtered_is_bool_filter (useReactTable props st ctx)) as [f ->].
  change (props_data props) with (data (useReactTable props st ctx)).
  rewrite <- (core_length (useReactTable props st ctx)).
  generalize (getCoreRowModel (useReactTable props st ctx)).
  intros l. induction l as [|x l IH]; simpl; [lia |].
  destruct (f x); simpl; lia.
Qed.

Lemma totalPages_le_data (ctx : gmap string Z) :
  0 < size -> totalPages props st ctx <= Z.of_nat (length (props_data props)).
Proof.
  intros Hsize. pose proof (totalPages_ceiling ctx Hsize) as H.
  pose proof (filtered_length_le ctx). simpl in H. nia.
Qed.

(** The page index a click leaves in the store. *)
Lemma click_index (ctx : gmap string Z) (b : PagerButton) :
  0 < size -> 0 <= PageStore.projectPageIndex ctx ->
  let page := PageStore.projectPageIndex ctx in
  let pageCount := totalPages props st ctx in
  PageStore.projectPageIndex (clickButton props st ctx b)
  = if showPagination props st ctx
    then match b with
         | FirstBtn => 0
         | PrevBtn => if 0 <? page then Z.min (page - 1) MAX_SAFE_INTEGER else page
         | NextBtn => if page <? pageCount - 1
                      then Z.min (page + 1) MAX_SAFE_INTEGER else page
         | LastBtn => if page <? pageCount - 1
                      then Z.min (pageCount - 1) MAX_SAFE_INTEGER else page
         end
    else page.
Proof.
  intros Hsize Hpage page pageCount.
  pose proof (canNextPage_unfold props st ctx Hsize Hpage) as Hnext.
  pose proof (totalPages_nonneg ctx Hsize) as Hcount.
  fold page pageCount in Hnext. fold pageCount in Hcount.
  unfold clickButton, buttonDisabled.
  destruct (showPagination props st ctx) eqn:Eshow; [| reflexivity].
  unfold showPagination in Eshow. apply Z.ltb_lt in Eshow. fold pageCount in Eshow.
  cbn [andb].
  destruct b; rewrite ?Hnext; unfold buttonOnClick;
    change (getCanPreviousPage (useReactTable props st ctx)) with (0 <? page);
    rewrite negb_involutive.
  - destruct (0 <? page) eqn:E.
    + rewrite setPageIndex_writes, projectPageIndex_set. reflexivity.
    + apply Z.ltb_ge in E. fold page. lia.
  - destruct (0 <? page) eqn:E; [| reflexivity].
    apply Z.ltb_lt in E.
    rewrite previousPage_writes, projectPageIndex_set. fold page.
    unfold MAX_SAFE_INTEGER. lia.
  - destruct (page <? pageCount - 1) eqn:E; [| reflexivity].
    rewrite nextPage_writes, projectPageIndex_set. fold page.
    unfold MAX_SAFE_INTEGER. lia.
  - destruct (page <? pageCount - 1) eqn:E; [| reflexivity].
    rewrite setPageIndex_writes, projectPageIndex_set.
    cbn [functionalUpdate]. fold pageCount. unfold MAX_SAFE_INTEGER. lia.
Qed.

Lemma click_in_range (ctx : gmap string Z) (b : PagerButton) :
  0 < size ->
  0 <= PageStore.projectPageIndex ctx <= totalPages props st ctx - 1 ->
  0 <= PageStore.projectPageIndex (clickButton props st ctx b)
    <= totalPages props st ctx - 1.
Proof.
  intros Hsize Hrange.
  rewrite click_index by (done || lia).
  destruct (showPagination props st ctx); [| done].
  unfold MAX_SAFE_INTEGER.
  destruct b; repeat match goal with
                     | |- context [if ?c then _ else _] =>
                         let E := fresh "E" in
                         destruct c eqn:E;
                         [apply Z.ltb_lt in E | apply Z.ltb_ge in E]
                     end; lia.
Qed.

Lemma in_range_page_shows_rows (ctx : gmap string Z) :
  0 < size ->
  0 <= PageStore.projectPageIndex ctx <= totalPages props st ctx - 1 ->
  bodyRows props st ctx <> [].
Proof.
  intros Hsize Hrange Hnil.
  pose proof (page_length (useReactTable props st ctx) Hsize (proj1 Hrange)) as Hlen.
  pose proof (totalPages_ceiling ctx Hsize) as Hceil.
  simpl in Hlen, Hceil. fold (bodyRows props st ctx) in Hlen.
  rewrite Hnil in Hlen. simpl in Hlen. fold size in Hlen, Hceil.
  set (n := Z.of_nat (length (getFilteredRowModel (useReactTable props st ctx)))) in *.
  set (page := PageStore.projectPageIndex ctx) in *.
  set (pageCount := totalPages props st ctx) in *.
  assert (page * size < n) by nia.
  destruct (0 <=? n - page * size) eqn:E;
    [apply Z.leb_le in E | apply Z.leb_gt in E]; lia.
Qed.

End Pager.

(** X1: starting from a page index within [0, pageCount - 1], no sequence
    of clicks on the pager buttons takes the page index out of that range,
    and the page shown afterwards is never empty. *)
Theorem pager_clicks_stay_in_range
    (props : TableProps) (st : TableState) (buttons : list PagerButton)
    (ctx : gmap string Z) :
  0 < props_pageSize props ->
  0 <= PageStore.projectPageIndex ctx <= totalPages props st ctx - 1 ->
  let ctx' := clickButtons props st buttons ctx in
  0 <= PageStore.projectPageIndex ctx' <= totalPages props st ctx' - 1
  /\ bodyRows props st ctx' <> [].
Proof.
  intros Hsize Hrange ctx'.
  assert (H : 0 <= PageStore.projectPageIndex ctx'
              <= totalPages props st ctx' - 1).
  { unfold ctx', clickButtons. clear ctx'. revert ctx Hrange.
    induction buttons as [|b bs IH]; intros ctx Hrange; simpl; [done |].
    apply IH. rewrite (totalPages_store props st ctx).
    by apply click_in_range. }
  split; [exact H | by apply in_range_page_shows_rows].
Qed.

Lemma pager_clicks_stay_in_range_witness :
  let ctx' := clickButtons fiveItems initialState
                [NextBtn; NextBtn; NextBtn; LastBtn; PrevBtn] ∅ in
  0 <= PageStore.projectPageIndex ctx' <= 2
  /\ bodyRows fiveItems initialState ctx' <> [].
Proof.
  apply (pager_clicks_stay_in_range fiveItems initialState
           [NextBtn; NextBtn; NextBtn; LastBtn; PrevBtn] ∅).
  - reflexivity.
  - split; discriminate.
Defined.



(** X3: on a page within range, with the pager shown, an enabled button
    does what its label says: [<] goes one page back, [<<] to page 0, [>]
    one page forward and [>>] to page [pageCount - 1]. *)
Theorem pager_buttons_move_the_page
    (props : TableProps) (st : TableState) (ctx : gmap string Z) :
  let page := PageStore.projectPageIndex ctx in
  let pageCount := totalPages props st ctx in
  0 < props_pageSize props ->
  Z.of_nat (length (props_data props)) <= MAX_SAFE_INTEGER ->
  0 <= page <= pageCount - 1 -> 1 < pageCount ->
  (0 < page ->
   PageStore.projectPageIndex (clickButton props st ctx PrevBtn) = page - 1
   /\ PageStore.projectPageIndex (clickButton props st ctx FirstBtn) = 0)
  /\ (page < pageCount - 1 ->
      PageStore.projectPageIndex (clickButton props st ctx NextBtn) = page + 1
      /\ PageStore.projectPageIndex (clickButton props st ctx LastBtn)
         = pageCount - 1).
Proof.
  intros page pageCount Hsize Hdata Hrange Hmany.
  pose proof (totalPages_le_data props st ctx Hsize) as Hle. fold pageCount in Hle.
  assert (Hshow : showPagination props st ctx = true).
  { unfold showPagination. by apply Z.ltb_lt. }
  split; intros H; split; rewrite click_index by (done || lia);
    rewrite Hshow; fold page pageCount;
    repeat match goal with
           | |- context [if ?c then _ else _] =>
               let E := fresh "E" in
               destruct c eqn:E;
               [apply Z.ltb_lt in E | apply Z.ltb_ge in E]
           end; lia.
Qed.

Lemma pager_buttons_move_the_page_witness :
  let ctx := PageStore.setProjectPageIndex 1 ∅ in
  PageStore.projectPageIndex (clickButton fiveItems initialState ctx PrevBtn) = 0
  /\ PageStore.projectPageIndex (clickButton fiveItems initialState ctx LastBtn) = 2.
Proof.
  intros ctx.
  pose proof (pager_buttons_move_the_page fiveItems initialState ctx
                ltac:(reflexivity) ltac:(discriminate)
                ltac:(split; discriminate) ltac:(reflexivity)) as [Hback Hforth].
  split.
  - apply (Hback ltac:(reflexivity)).
  - apply (Hforth ltac:(reflexivity)).
Defined.

(** ** The summary line *)

(** X4: when the pager is shown the summary line reads "Showing [from] to
    [to] of [n] results", and on a page within range the two numbers
    delimit exactly the rows of the table body: [1 <= from <= to <= n] and
    [to - from + 1] rows are shown.  When the pager is not shown the line
    reads "Showing [n] of [n] results". *)
Theorem summary_matches_body
    (props : TableProps) (st : TableState) (ctx : gmap string Z) :
  let n := Z.of_nat (length (getFilteredRowModel (useReactTable props st ctx))) in
  let from := summaryFrom props st ctx in
  let to := summaryTo props st ctx in
  (showPagination props st ctx = true ->
   summaryText props st ctx
   = "Showing" +:+ " "
     +:+ (Js.number_toString from +:+ " to " +:+ Js.number_toString to)
     +:+ " " +:+ "of " +:+ Js.number_toString n +:+ " results")
  /\ (showPagination props st ctx = false ->
      summaryText props st ctx
      = "Showing" +:+ " " +:+ Js.number_toString n
        +:+ " " +:+ "of " +:+ Js.number_toString n +:+ " results")
  /\ (0 < props_pageSize props ->
      0 <= PageStore.projectPageIndex ctx <= totalPages props st ctx - 1 ->
      1 <= from <= to /\ to <= n
      /\ Z.of_nat (length (bodyRows props st ctx)) = to - from + 1).
Proof.
  intros n from to.
  split; [| split].
  - intros Hshow. unfold summaryText. rewrite Hshow. reflexivity.
  - intros Hshow. unfold summaryText. rewrite Hshow. reflexivity.
  - intros Hsize Hrange.
    pose proof (page_length (useReactTable props st ctx) Hsize (proj1 Hrange)) as Hlen.
    pose proof (totalPages_ceiling props st ctx Hsize) as Hceil.
    simpl in Hlen, Hceil. fold (bodyRows props st ctx) in Hlen.
    fold n in Hlen, Hceil. rewrite Hlen.
    unfold from, to, summaryFrom, summaryTo, currentPage. simpl. fold n.
    set (page := PageStore.projectPageIndex ctx) in *.
    set (size := props_pageSize props) in *.
    set (pageCount := totalPages props st ctx) in *.
    assert (page * size < n) by nia.
    assert (0 <= page * size) by nia.
    destruct (0 <=? n - page * size) eqn:E;
      [apply Z.leb_le in E | apply Z.leb_gt in E]; lia.
Qed.

Lemma summary_matches_body_witness :
  let ctx := PageStore.setProjectPageIndex 2 ∅ in
  summaryText fiveItems initialState ctx = "Showing 5 to 5 of 5 results"
  /\ length (bodyRows fiveItems initialState ctx) = 1%nat.
Proof.
  intros ctx.
  pose proof (summary_matches_body fiveItems initialState ctx) as (Htext & _ & Hrows).
  split.
  - rewrite (Htext ltac:(reflexivity)). reflexivity.
  - destruct (Hrows ltac:(reflexivity) ltac:(split; discriminate)) as (_ & _ & Hlen).
    apply Nat2Z.inj. rewrite Hlen. reflexivity.
Defined.

(** ** Writes to the store *)

(** X5: whatever page index is asked of the engine's [setPageIndex], as a
    value or as a function of the old index, the component stores an
    index between 0 and [MAX_SAFE_INTEGER]: the requested one when it lies
    in that range, the nearer bound otherwise.  The write goes to the one
    counter of the project list: the counters of other identities, and the
    page size the next render uses, are untouched. *)
Theorem setPageIndex_clamps_and_frames
    (props : TableProps) (st : TableState) (ctx : gmap string Z)
    (updater : Updater Z) :
  let requested := functionalUpdate updater (PageStore.projectPageIndex ctx) in
  let ctx' := setPageIndex (useReactTable props st ctx) updater ctx in
  0 <= PageStore.projectPageIndex ctx' <= MAX_SAFE_INTEGER
  /\ (0 <= requested <= MAX_SAFE_INTEGER ->
      PageStore.projectPageIndex ctx' = requested)
  /\ (requested < 0 -> PageStore.projectPageIndex ctx' = 0)
  /\ (forall id, id <> PageStore.projectsIdentity ->
                 PageStore.getPageIndex ctx' id = PageStore.getPageIndex ctx id)
  /\ pageSize (pagination (useReactTable props st ctx')) = props_pageSize props.
Proof.
  intros requested ctx'. unfold ctx'.
  rewrite setPageIndex_writes, projectPageIndex_set. fold requested.
  unfold MAX_SAFE_INTEGER.
  split; [lia |]. split; [lia |]. split; [lia |].
  split; [| reflexivity].
  intros id Hid. apply store_get_set_other. congruence.
Qed.

Lemma setPageIndex_clamps_and_frames_witness :
  PageStore.projectPageIndex
    (setPageIndex (useReactTable fiveItems initialState ∅) (Value (-3)) ∅) = 0
  /\ PageStore.projectPageIndex
       (setPageIndex (useReactTable fiveItems initialState ∅)
                     (Fn (fun old => old + 7)) ∅) = 7.
Proof.
  pose proof (setPageIndex_clamps_and_frames fiveItems initialState ∅ (Value (-3)))
    as (_ & _ & Hneg & _).
  pose proof (setPageIndex_clamps_and_frames fiveItems initialState ∅
                (Fn (fun old => old + 7))) as (_ & Hin & _).
  split.
  - apply Hneg. reflexivity.
  - apply Hin. split; discriminate.
Defined.

(** ** Rows shown *)

Lemma slice_sublist {A : Type} (l : list A) (start stop : Z) :
  sublist (Js.slice l start stop) l.
Proof.
  unfold Js.slice. etrans; [apply sublist_take | apply sublist_drop].
Qed.

Lemma bool_filter_sublist {A : Type} (f : A -> bool) (l : list A) :
  sublist (List.filter f l) l.
Proof.
  induction l as [|x l IH]; simpl; [constructor |].
  destruct (f x); by constructor.
Qed.

Lemma core_NoDup {W : Type} (table : Options W) : NoDup (getCoreRowModel table).
Proof.
  apply NoDup_alt. intros i j row Hi Hj.
  apply core_row_index in Hi, Hj. lia.
Qed.

(** X6: the table body never shows a row twice and never shows a row that
    the filter dropped: every row of the body is a filtered row, hence a
    row of [data]; with a non-empty search text and a filterable column,
    every row of the body has a truthy cell in a filterable column whose
    text contains the search text, letter case ignored. *)
Theorem body_rows_are_filtered_rows
    (props : TableProps) (st : TableState) (ctx : gmap string Z) :
  let table := useReactTable props st ctx in
  NoDup (bodyRows props st ctx)
  /\ (forall row, row ∈ bodyRows props st ctx ->
        row ∈ getFilteredRowModel table
        /\ props_data props !! Z.to_nat (index row) = Some (original row))
  /\ (st_globalFilter st <> "" -> globallyFilterableColumns table <> [] ->
      forall row, row ∈ bodyRows props st ctx ->
        exists c, c ∈ globallyFilterableColumns table
                  /\ fuzzyFilter row (col_id c) (st_globalFilter st) = true).
Proof.
  intros table. unfold table. clear table.
  set (table := useReactTable props st ctx).
  assert (Hsub : forall row, row ∈ bodyRows props st ctx ->
                             row ∈ getFilteredRowModel table).
  { intros row Hrow. unfold bodyRows, getRowModel in Hrow.
    rewrite pagination_unfold in Hrow.
    eapply elem_of_sublist in Hrow; [| apply slice_sublist].
    fold table in Hrow. by rewrite (sorted_perm table) in Hrow. }
  assert (Hcore : forall row, row ∈ getFilteredRowModel table ->
                              row ∈ getCoreRowModel table).
  { intros row. destruct (filtered_is_bool_filter table) as [f ->].
    rewrite elem_of_bool_filter. tauto. }
  split; [| split].
  - unfold bodyRows, getRowModel. rewrite pagination_unfold.
    eapply sublist_NoDup; [| apply slice_sublist].
    fold table. rewrite (sorted_perm table).
    destruct (filtered_is_bool_filter table) as [f ->].
    eapply sublist_NoDup; [apply (core_NoDup table) | apply bool_filter_sublist].
  - intros row Hrow. split; [by apply Hsub |].
    apply Hsub, Hcore, list_elem_of_lookup in Hrow as [i Hi].
    rewrite (core_row_index table i row Hi), Nat2Z.id.
    unfold getCoreRowModel in Hi. rewrite list_lookup_imap in Hi.
    change (data table) with (props_data props) in Hi.
    destruct (props_data props !! i); simpl in Hi; [| done].
    by injection Hi as <-.
  - intros Htext Hcols row Hrow. apply Hsub in Hrow.
    rewrite filtered_of_text in Hrow by done.
    apply elem_of_bool_filter in Hrow as [_ Hpass].
    unfold passesGlobalFilter in Hpass. by apply existsb_elem_of in Hpass.
Qed.

Lemma body_rows_are_filtered_rows_witness :
  exists c, c ∈ globallyFilterableColumns (useReactTable fiveItems (searching "ALP") ∅)
            /\ fuzzyFilter {| index := 0; original := item 1 "Alpha" |}
                           (col_id c) "ALP" = true.
Proof.
  pose proof (body_rows_are_filtered_rows fiveItems (searching "ALP") ∅)
    as (_ & _ & H).
  apply (H ltac:(discriminate) ltac:(discriminate)).
  apply list_elem_of_here.
Defined.

Lemma slice_take_drop {A : Type} (l : list A) (start stop : Z) :
  0 <= start <= stop ->
  Js.slice l start stop
  = take (Z.to_nat stop - Z.to_nat start) (drop (Z.to_nat start) l).
Proof.
  intros [Hs He]. unfold Js.slice.
  destruct (start <? 0) eqn:E1; [apply Z.ltb_lt in E1; lia |].
  destruct (stop <? 0) eqn:E2; [apply Z.ltb_lt in E2; lia |].
  destruct (Z.le_gt_cases start (Z.of_nat (length l))) as [Hin | Hout].
  - rewrite (Z.min_l start) by lia.
    destruct (Z.le_gt_cases stop (Z.of_nat (length l))) as [Hin' | Hout'].
    + rewrite (Z.min_l stop) by lia. f_equal. lia.
    + rewrite (Z.min_r stop) by lia.
      transitivity (drop (Z.to_nat start) l);
        [apply take_ge | symmetry; apply take_ge]; rewrite length_drop; lia.
  - rewrite !drop_ge by lia. by rewrite !take_nil.
Qed.

(** The first [k] pages of [size] rows, one after the other, are the first
    [k * size] rows. *)
Lemma pages_concat {A : Type} (l : list A) (size : nat) (k : nat) :
  concat ((fun p : nat => Js.slice l (Z.of_nat p * Z.of_nat size)
                                   ((Z.of_nat p + 1) * Z.of_nat size))
          <$> seq 0 k)
  = take (k * size) l.
Proof.
  induction k as [|k IH]; [reflexivity |].
  rewrite seq_S, fmap_app, concat_app, IH. simpl.
  rewrite app_nil_r, slice_take_drop by lia.
  replace (Z.to_nat ((Z.of_nat k + 1) * Z.of_nat size)
           - Z.to_nat (Z.of_nat k * Z.of_nat size))%nat with size by lia.
  replace (Z.to_nat (Z.of_nat k * Z.of_nat size)) with (k * size)%nat by lia.
  rewrite take_take_drop. f_equal. lia.
Qed.

(** X7: the pages partition the sorted rows: the bodies of pages 0 to
    [pageCount - 1], one after the other, are exactly the sorted (filtered)
    rows, each row on one page and in sorted order. *)
Theorem pages_partition_sorted_rows
    (props : TableProps) (st : TableState) (ctx : gmap string Z) :
  0 < props_pageSize props ->
  concat ((fun p : nat =>
             bodyRows props st (PageStore.setProjectPageIndex (Z.of_nat p) ctx))
          <$> seq 0 (Z.to_nat (totalPages props st ctx)))
  = getSortedRowModel (useReactTable props st ctx).
Proof.
  intros Hsize.
  set (sorted := getSortedRowModel (useReactTable props st ctx)).
  set (size := Z.to_nat (props_pageSize props)).
  assert (Hpage : forall p : nat,
             bodyRows props st (PageStore.setProjectPageIndex (Z.of_nat p) ctx)
             = Js.slice sorted (Z.of_nat p * Z.of_nat size)
                               ((Z.of_nat p + 1) * Z.of_nat size)).
  { intros p. unfold bodyRows, getRowModel. rewrite pagination_unfold.
    cbn [pagination useReactTable pageIndex pageSize].
    rewrite projectPageIndex_set. unfold size. rewrite Z2Nat.id by lia.
    reflexivity. }
  erewrite list_fmap_ext; [| intros i p _; apply Hpage].
  rewrite pages_concat. apply take_ge.
  pose proof (totalPages_ceiling props st ctx Hsize) as Hceil.
  pose proof (totalPages_nonneg props st ctx Hsize) as Hnn.
  simpl in Hceil.
  unfold sorted. rewrite (Permutation_length (sorted_perm _)).
  unfold size. nia.
Qed.

Lemma pages_partition_sorted_rows_witness :
  bodyRows fiveItems initialState (PageStore.setProjectPageIndex 0 ∅)
  ++ bodyRows fiveItems initialState (PageStore.setProjectPageIndex 1 ∅)
  ++ bodyRows fiveItems initialState (PageStore.setProjectPageIndex 2 ∅)
  = getCoreRowModel (useReactTable fiveItems initialState ∅).
Proof.
  pose proof (pages_partition_sorted_rows fiveItems initialState ∅
                ltac:(reflexivity)) as H.
  etrans; [| exact H]. reflexivity.
Defined.

(** ** More on the filter *)

Lemma lower_ascii_idem (c : ascii) :
  Js.lower_ascii (Js.lower_ascii c) = Js.lower_ascii c.
Proof. destruct c as [[] [] [] [] [] [] [] []]; reflexivity. Qed.

Lemma toLowerCase_idem (s : string) :
  Js.toLowerCase (Js.toLowerCase s) = Js.toLowerCase s.
Proof.
  induction s as [|c s IH]; simpl; [reflexivity |].
  by rewrite lower_ascii_idem, IH.
Qed.

(** X8: [fuzzyFilter] ignores the letter case of the search text: the text
    and its lower-case form give the same answer on every cell, and so do
    two texts that differ in letter case only.  With the empty search text
    it answers [true] exactly on the truthy cells. *)
Theorem fuzzyFilter_ignores_case (row : Row) (columnId : string) :
  (forall value, fuzzyFilter row columnId (Js.toLowerCase value)
                 = fuzzyFilter row columnId value)
  /\ (forall v1 v2, Js.toLowerCase v1 = Js.toLowerCase v2 ->
                    fuzzyFilter row columnId v1 = fuzzyFilter row columnId v2)
  /\ fuzzyFilter row columnId "" = Js.truthy (getValue row columnId).
Proof.
  split; [| split].
  - intros value. unfold fuzzyFilter. by rewrite toLowerCase_idem.
  - intros v1 v2 H. unfold fuzzyFilter. by rewrite H.
  - rewrite fuzzyFilter_unfold. unfold containsIgnoreCase.
    change (Js.toLowerCase "") with "". rewrite includes_empty.
    apply andb_true_r.
Qed.

Lemma fuzzyFilter_ignores_case_witness :
  fuzzyFilter {| index := 0; original := item 1 "Alpha" |} "name" "aLPh"
  = fuzzyFilter {| index := 0; original := item 1 "Alpha" |} "name" "ALPH".
Proof.
  pose proof (fuzzyFilter_ignores_case
                {| index := 0; original := item 1 "Alpha" |} "name")
    as (_ & H & _).
  apply H. reflexivity.
Defined.

(** X10: a table without records shows no row whatever the search text,
    the sort and the stored page index; for a positive page size it has 0
    pages, no pager, and the summary "Showing 0 of 0 results". *)
Theorem empty_data_shows_nothing
    (props : TableProps) (st : TableState) (ctx : gmap string Z) :
  props_data props = [] ->
  bodyRows props st ctx = []
  /\ getFilteredRowModel (useReactTable props st ctx) = []
  /\ (0 < props_pageSize props ->
      totalPages props st ctx = 0
      /\ showPagination props st ctx = false
      /\ summaryText props st ctx = "Showing 0 of 0 results").
Proof.
  intros Hdata.
  assert (Hcore : getCoreRowModel (useReactTable props st ctx) = []).
  { unfold getCoreRowModel. cbn [data useReactTable]. by rewrite Hdata. }
  assert (Hfiltered : getFilteredRowModel (useReactTable props st ctx) = []).
  { unfold getFilteredRowModel, getPreFilteredRowModel. by rewrite Hcore. }
  assert (Hsorted : getSortedRowModel (useReactTable props st ctx) = []).
  { unfold getSortedRowModel, getPreSortedRowModel. by rewrite Hfiltered. }
  assert (Hbody : bodyRows props st ctx = []).
  { unfold bodyRows, getRowModel, getPaginationRowModel, getPrePaginationRowModel.
    by rewrite Hsorted. }
  split; [exact Hbody |]. split; [exact Hfiltered |].
  intros Hsize.
  assert (Hcount : totalPages props st ctx = 0).
  { unfold totalPages, getPageCount. rewrite row_count, Hfiltered.
    by apply ceil_div_zero. }
  split; [exact Hcount |].
  assert (Hshow : showPagination props st ctx = false).
  { unfold showPagination. by rewrite Hcount. }
  split; [exact Hshow |].
  unfold summaryText. rewrite Hshow, Hfiltered. reflexivity.
Qed.

Lemma empty_data_shows_nothing_witness :
  bodyRows emptyTable (searching "x") (PageStore.setProjectPageIndex 3 ∅) = []
  /\ summaryText emptyTable (searching "x") (PageStore.setProjectPageIndex 3 ∅)
     = "Showing 0 of 0 results".
Proof.
  pose proof (empty_data_shows_nothing emptyTable (searching "x")
                (PageStore.setProjectPageIndex 3 ∅) ltac:(reflexivity))
    as (Hbody & _ & Hrest).
  split; [exact Hbody |].
  apply (Hrest ltac:(reflexivity)).
Defined.

(** X11: which columns the search looks at is decided by the first record
    alone: a column is searched iff the first record holds a string or a
    number in it.  When the first record holds neither in any column, the
    search box filters nothing: every row is kept whatever the text. *)
Theorem search_columns_come_from_first_record
    (props : TableProps) (st : TableState) (ctx : gmap string Z)
    (first : gmap string Js.value) (others : list (gmap string Js.value)) :
  props_data props = first :: others ->
  let table := useReactTable props st ctx in
  (forall c, c ∈ globallyFilterableColumns table <->
             c ∈ props_columns props
             /\ Js.is_string_or_number (default Js.Undefined (first !! col_id c))
                = true)
  /\ ((forall c, c ∈ props_columns props ->
                 Js.is_string_or_number (default Js.Undefined (first !! col_id c))
                 = false) ->
      getFilteredRowModel table = getCoreRowModel table
      /\ length (getFilteredRowModel table) = length (props_data props)).
Proof.
  intros Hdata table.
  assert (Hcan : forall c, getCanGlobalFilter table c
                 = Js.is_string_or_number (default Js.Undefined (first !! col_id c))).
  { intros c. unfold getCanGlobalFilter, getCoreRowModel.
    cbn [data useReactTable table]. rewrite Hdata. reflexivity. }
  assert (Hiff : forall c, c ∈ globallyFilterableColumns table <->
             c ∈ props_columns props
             /\ Js.is_string_or_number (default Js.Undefined (first !! col_id c))
                = true).
  { intros c. unfold globallyFilterableColumns.
    rewrite elem_of_bool_filter, Hcan. reflexivity. }
  split; [exact Hiff |].
  intros Hnone.
  assert (Hempty : globallyFilterableColumns table = []).
  { destruct (globallyFilterableColumns table) as [|c cs] eqn:E; [reflexivity |].
    destruct (proj1 (Hiff c) (list_elem_of_here _ _)) as [Hc Htrue].
    rewrite (Hnone c Hc) in Htrue. discriminate. }
  rewrite (filtered_of_no_filterable_column table Hempty).
  split; [reflexivity | apply (core_length table)].
Qed.

(** The first record of [nullFirstTable] holds [null] and a boolean: the
    search "alpha" keeps all three rows. *)
Lemma search_columns_come_from_first_record_witness :
  length (getFilteredRowModel (useReactTable nullFirstTable (searching "alpha") ∅))
  = 3%nat.
Proof.
  pose proof (search_columns_come_from_first_record nullFirstTable
                (searching "alpha") ∅ _ _ eq_refl) as [_ H].
  apply H. intros c Hc.
  apply elem_of_cons in Hc as [-> | Hc]; [reflexivity |].
  apply list_elem_of_singleton in Hc as ->. reflexivity.
Defined.

(** ** The order of the sorted rows *)

Section SortedOn.
Context {A : Type}.
Variable compareFn : A -> A -> Z.
Variable P : A -> Prop.
Hypothesis total_on :
  forall x y, P x -> P y -> 0 < compareFn x y -> compareFn y x <= 0.
Hypothesis trans_on :
  forall x y z, P x -> P y -> P z ->
                compareFn x y <= 0 -> compareFn y z <= 0 -> compareFn x z <= 0.

Lemma insert_sorted_sorted_on (x : A) (l : list A) :
  P x -> Forall P l ->
  StronglySorted (fun a b => compareFn a b <= 0) l ->
  StronglySorted (fun a b => compareFn a b <= 0) (Js.insert_sorted compareFn x l).
Proof.
  intros Hx HP Hsorted. induction Hsorted as [|y l Hsorted IH Hall]; simpl.
  - repeat constructor.
  - apply Forall_cons in HP as [Hy HP].
    destruct (compareFn x y <=? 0) eqn:E.
    + apply Z.leb_le in E. constructor; [by constructor |].
      constructor; [done |].
      rewrite Forall_forall in Hall, HP. apply Forall_forall. intros z Hz.
      apply (trans_on x y z); auto.
    + apply Z.leb_gt in E. constructor; [by apply IH |].
      rewrite insert_sorted_perm. constructor; [by apply total_on | done].
Qed.

Lemma sort_sorted_on (l : list A) :
  Forall P l ->
  StronglySorted (fun a b => compareFn a b <= 0) (Js.sort compareFn l).
Proof.
  induction l as [|x l IH]; intros HP; simpl; [constructor |].
  apply Forall_cons in HP as [Hx HP].
  apply insert_sorted_sorted_on; [done | by rewrite sort_perm | by apply IH].
Qed.

End SortedOn.

Lemma before_sorted {A : Type} (R : A -> A -> Prop) (a b : A) (l : list A) :
  StronglySorted R l -> before a b l -> R a b.
Proof.
  intros Hsorted Hab. induction Hab as [l Hb | y l Hab IH].
  - apply StronglySorted_inv in Hsorted as [_ Hall].
    rewrite Forall_forall in Hall. by apply Hall.
  - apply StronglySorted_inv in Hsorted as [Hsorted _]. by apply IH.
Qed.

Lemma before_elem_of {A : Type} (a b : A) (l : list A) :
  before a b l -> a ∈ l /\ b ∈ l.
Proof.
  induction 1 as [l Hb | y l Hab [Ha Hb]].
  - split; [apply list_elem_of_here | by apply list_elem_of_further].
  - split; by apply list_elem_of_further.
Qed.

Ltac split_comparisons :=
  repeat match goal with
         | |- context [?a =? ?b] => destruct (Z.eqb_spec a b)
         | |- context [?a <? ?b] => destruct (Z.ltb_spec a b)
         end.

Section NumberColumn.
Variable props : TableProps.
Variable st : TableState.
Variable ctx : gmap string Z.
Variable columnId : string.
Variable descending : bool.
Variable column : ColumnDef.

Let table := useReactTable props st ctx.

Hypothesis one_entry :
  st_sorting st = [ {| sort_id := columnId; desc := descending |} ].
Hypothesis column_found : getColumn table columnId = Some column.
Hypothesis column_basic : sortingFn column = basicNumbers.
Hypothesis column_plain : invertSorting column = false.

Lemma compareRows_numbers (x y : Row) (nx ny : Z) :
  getValue x columnId = Js.Number nx -> getValue y columnId = Js.Number ny ->
  compareRows table x y
  = if nx =? ny then index x - index y
    else if descending then (if ny <? nx then -1 else 1)
         else (if ny <? nx then 1 else -1).
Proof.
  intros Hx Hy. unfold compareRows, availableSorting.
  change (sorting table) with (st_sorting st). rewrite one_entry.
  cbn [List.filter sort_id]. rewrite column_found.
  rewrite bool_decide_true by eauto.
  cbn [compareBy]. unfold compareEntry. cbn [sort_id desc].
  rewrite column_found, Hx, Hy, column_basic, column_plain.
  cbn [Js.is_undefined orb andb]. rewrite andb_false_r. cbn [Z.eqb].
  unfold basicNumbers. rewrite Hx, Hy.
  destruct (nx =? ny) eqn:E; [reflexivity |].
  destruct (ny <? nx), descending; reflexivity.
Qed.

End NumberColumn.

(** X9: with one active sort entry on a column that holds a number in every
    record and is compared by the engine's [basic] sorting function, the
    sorted rows are in order of that number: non-decreasing down the table
    when ascending, non-increasing when descending. *)
Theorem number_column_is_ordered
    (props : TableProps) (st : TableState) (ctx : gmap string Z)
    (columnId : string) (descending : bool) (column : ColumnDef) :
  let table := useReactTable props st ctx in
  st_sorting st = [ {| sort_id := columnId; desc := descending |} ] ->
  getColumn table columnId = Some column ->
  sortingFn column = basicNumbers ->
  invertSorting column = false ->
  (forall row, row ∈ getCoreRowModel table ->
               exists n, getValue row columnId = Js.Number n) ->
  forall a b, before a b (getSortedRowModel table) ->
    exists na nb, getValue a columnId = Js.Number na
                  /\ getValue b columnId = Js.Number nb
                  /\ if descending then nb <= na else na <= nb.
Proof.
  intros table Hone Hcol Hbasic Hplain Hnumbers a b Hab.
  set (P := fun row : Row => exists n, getValue row columnId = Js.Number n).
  assert (Hcmp := compareRows_numbers props st ctx columnId descending column
                    Hone Hcol Hbasic Hplain).
  fold table in Hcmp.
  assert (HP : Forall P (getFilteredRowModel table)).
  { apply Forall_forall. intros row Hrow. apply Hnumbers.
    destruct (filtered_is_bool_filter table) as [f Hf]. rewrite Hf in Hrow.
    by apply elem_of_bool_filter in Hrow as [Hrow _]. }
  assert (Hsorted : StronglySorted (fun x y => compareRows table x y <= 0)
                      (getSortedRowModel table)).
  { rewrite sorted_unfold. change (sorting table) with (st_sorting st).
    rewrite Hone. apply (sort_sorted_on (compareRows table) P); [| | exact HP].
    - intros x y [nx Hx] [ny Hy].
      rewrite (Hcmp x y nx ny Hx Hy), (Hcmp y x ny nx Hy Hx).
      destruct descending; split_comparisons; lia.
    - intros x y z [nx Hx] [ny Hy] [nz Hz].
      rewrite (Hcmp x y nx ny Hx Hy), (Hcmp y z ny nz Hy Hz),
        (Hcmp x z nx nz Hx Hz).
      destruct descending; split_comparisons; lia. }
  pose proof (before_sorted _ a b _ Hsorted Hab) as Hle.
  apply before_elem_of in Hab as [Ha Hb].
  rewrite (sorted_perm table) in Ha, Hb.
  rewrite Forall_forall in HP.
  destruct (HP a Ha) as [na Hna]. destruct (HP b Hb) as [nb Hnb].
  exists na, nb. split; [done |]. split; [done |].
  cbv beta in Hle. rewrite (Hcmp a b na nb Hna Hnb) in Hle. revert Hle.
  destruct descending; split_comparisons; lia.
Qed.

(** [threeNumbers] sorted by [n], ascending: the row holding 1 comes before
    the row holding 3. *)
Lemma number_column_is_ordered_witness :
  exists na nb,
    getValue {| index := 1; original := {[ "n" := Js.Number 1 ]} |} "n"
    = Js.Number na
    /\ getValue {| index := 0; original := {[ "n" := Js.Number 3 ]} |} "n"
       = Js.Number nb
    /\ na <= nb.
Proof.
  apply (number_column_is_ordered threeNumbers (sortedBy "n" false) ∅ "n" false
           (numberColumn "n")).
  - reflexivity.
  - reflexivity.
  - reflexivity.
  - reflexivity.
  - intros row Hrow. vm_compute in Hrow.
    repeat (apply elem_of_cons in Hrow as [-> | Hrow]);
      [by eexists | by eexists | by eexists | by apply not_elem_of_nil in Hrow].
  - vm_compute. apply before_here, list_elem_of_further, list_elem_of_here.
Defined.

(** ** Clicks on column headers *)

Lemma setSorting_unfold
    (props : TableProps) (sorting' : list ColumnSort) (st : TableState)
    (ctx : gmap string Z) :
  setSorting props sorting' st ctx
  = ({| st_sorting := sorting'; st_globalFilter := st_globalFilter st |}, ctx).
Proof. reflexivity. Qed.

Lemma clickHeader_unfold
    (props : TableProps) (columnId : string) (shiftKey : bool)
    (st : TableState) (ctx : gmap string Z) :
  is_Some (getColumn (useReactTable props st ctx) columnId) ->
  clickHeader props columnId shiftKey st ctx
  = ({| st_sorting := toggleSorting (useReactTable props st ctx) columnId
                                    shiftKey (st_sorting st);
        st_globalFilter := st_globalFilter st |}, ctx).
Proof.
  intros [column Hcol]. unfold clickHeader. rewrite Hcol.
  apply setSorting_unfold.
Qed.

Lemma clickHeader_store
    (props : TableProps) (columnId : string) (shiftKey : bool)
    (st : TableState) (ctx : gmap string Z) :
  snd (clickHeader props columnId shiftKey st ctx) = ctx
  /\ st_globalFilter (fst (clickHeader props columnId shiftKey st ctx))
     = st_globalFilter st.
Proof.
  unfold clickHeader.
  destruct (getColumn (useReactTable props st ctx) columnId);
    [rewrite setSorting_unfold |]; split; reflexivity.
Qed.

Lemma findIndex_none {A : Type} (f : A -> bool) (l : list A) :
  List.find f l = None -> findIndex f l = -1.
Proof.
  induction l as [|x l IH]; simpl; [reflexivity |].
  destruct (f x); [discriminate |]. intros H. rewrite (IH H). reflexivity.
Qed.

Section Toggle.
Context {W : Type}.
Variable table : Options W.
Variable columnId : string.

Let isColumn := fun d : ColumnSort => String.eqb (sort_id d) columnId.
Let firstDesc : bool :=
  match getFirstSortDir table columnId with Desc => true | Asc => false end.

(** a column without a sort entry gets the only entry, in its first
    direction *)
Lemma toggle_unsorted (old : list ColumnSort) :
  List.find isColumn (sorting table) = None ->
  List.find isColumn old = None ->
  toggleSorting table columnId false old
  = [ {| sort_id := columnId; desc := firstDesc |} ].
Proof.
  intros Htable Hold. unfold toggleSorting, getNextSortingOrder, getIsSorted.
  fold isColumn. rewrite Htable, Hold, (findIndex_none _ _ Hold).
  rewrite andb_false_r. unfold firstDesc.
  destruct old as [|e old]; simpl.
  - reflexivity.
  - match goal with
    | |- context [if ?c then _ else _] => destruct c
    end; reflexivity.
Qed.

(** sorted in its first direction, the column is switched to the other *)
Lemma toggle_first_direction :
  sorting table = [ {| sort_id := columnId; desc := firstDesc |} ] ->
  toggleSorting table columnId false (sorting table)
  = [ {| sort_id := columnId; desc := negb firstDesc |} ].
Proof.
  intros Htable. unfold toggleSorting, getNextSortingOrder, getIsSorted.
  rewrite Htable. unfold firstDesc. simpl. rewrite String.eqb_refl. simpl.
  destruct (getFirstSortDir table columnId); simpl;
    rewrite ?String.eqb_refl; reflexivity.
Qed.

(** sorted in the other direction, the column loses its entry *)
Lemma toggle_second_direction :
  sorting table = [ {| sort_id := columnId; desc := negb firstDesc |} ] ->
  toggleSorting table columnId false (sorting table) = [].
Proof.
  intros Htable. unfold toggleSorting, getNextSortingOrder, getIsSorted.
  rewrite Htable. unfold firstDesc. simpl. rewrite String.eqb_refl. simpl.
  destruct (getFirstSortDir table columnId); simpl;
    rewrite ?String.eqb_refl; reflexivity.
Qed.

(** a plain click on a state with at most one entry leaves at most one
    entry, for the clicked column *)
Lemma toggle_plain_shape (old : list ColumnSort) :
  (length old <= 1)%nat ->
  toggleSorting table columnId false old = []
  \/ exists d, toggleSorting table columnId false old
               = [ {| sort_id := columnId; desc := d |} ].
Proof.
  intros Hlen. destruct old as [|e [|e' old]]; [| | simpl in Hlen; lia].
  - right. eexists. unfold toggleSorting. simpl. reflexivity.
  - unfold toggleSorting.
    cbn [List.find findIndex List.map List.filter length Nat.eqb negb andb].
    destruct (String.eqb (sort_id e) columnId) eqn:E.
    + cbn [Z.eqb Z.of_nat Z.sub Z.add Z.opp Pos.of_succ_nat Z.pos_sub negb andb].
      destruct (getNextSortingOrder table columnId) as [next|].
      * right. apply String.eqb_eq in E. rewrite E. by eexists.
      * left. reflexivity.
    + right. cbn [Z.ltb Z.compare Z.eqb Z.of_nat Z.sub Z.add Z.opp
                  Pos.of_succ_nat Z.pos_sub negb andb].
      by eexists.
Qed.

End Toggle.

(** X12: three plain clicks on the header of a sortable column that has no
    sort entry cycle through its states: the first click sorts by that
    column alone in its first direction, the second reverses the
    direction, the third removes the sort; the store and the search text
    are untouched.  The first direction is ascending exactly when the
    first filtered row holds a string in the column, and descending
    otherwise. *)
Theorem header_clicks_cycle
    (props : TableProps) (st : TableState) (ctx : gmap string Z)
    (columnId : string) :
  let table := useReactTable props st ctx in
  let firstDesc :=
    match getFirstSortDir table columnId with Desc => true | Asc => false end in
  let w1 := clickHeader props columnId false st ctx in
  let w2 := clickHeader props columnId false (fst w1) (snd w1) in
  let w3 := clickHeader props columnId false (fst w2) (snd w2) in
  is_Some (getColumn table columnId) ->
  getIsSorted table columnId = None ->
  st_sorting (fst w1) = [ {| sort_id := columnId; desc := firstDesc |} ]
  /\ st_sorting (fst w2) = [ {| sort_id := columnId; desc := negb firstDesc |} ]
  /\ st_sorting (fst w3) = []
  /\ snd w3 = ctx
  /\ st_globalFilter (fst w3) = st_globalFilter st
  /\ (firstDesc = false <->
      exists row rest s, getFilteredRowModel table = row :: rest
                         /\ getValue row columnId = Js.Str s).
Proof.
  intros table firstDesc w1 w2 w3 Hcol Hunsorted.
  assert (Hfind : List.find (fun d => String.eqb (sort_id d) columnId)
                            (st_sorting st) = None).
  { unfold getIsSorted in Hunsorted. cbn [sorting useReactTable table] in Hunsorted.
    by destruct (List.find _ (st_sorting st)). }
  assert (H1 : w1 = ({| st_sorting := [ {| sort_id := columnId; desc := firstDesc |} ];
                        st_globalFilter := st_globalFilter st |}, ctx)).
  { unfold w1. rewrite clickHeader_unfold by exact Hcol.
    rewrite (toggle_unsorted (useReactTable props st ctx) columnId) by exact Hfind.
    reflexivity. }
  assert (H2 : w2 = ({| st_sorting := [ {| sort_id := columnId;
                                           desc := negb firstDesc |} ];
                        st_globalFilter := st_globalFilter st |}, ctx)).
  { unfold w2. rewrite H1. cbn [fst snd].
    rewrite clickHeader_unfold by exact Hcol.
    cbn [st_sorting st_globalFilter].
    pose proof (toggle_first_direction
                  (useReactTable props
                     {| st_sorting := [ {| sort_id := columnId; desc := firstDesc |} ];
                        st_globalFilter := st_globalFilter st |} ctx)
                  columnId eq_refl) as Ht.
    f_equal. f_equal. exact Ht. }
  assert (H3 : w3 = ({| st_sorting := [];
                        st_globalFilter := st_globalFilter st |}, ctx)).
  { unfold w3. rewrite H2. cbn [fst snd].
    rewrite clickHeader_unfold by exact Hcol.
    cbn [st_sorting st_globalFilter].
    pose proof (toggle_second_direction
                  (useReactTable props
                     {| st_sorting := [ {| sort_id := columnId;
                                           desc := negb firstDesc |} ];
                        st_globalFilter := st_globalFilter st |} ctx)
                  columnId eq_refl) as Ht.
    f_equal. f_equal. exact Ht. }
  rewrite H1, H2, H3. cbn [fst snd st_sorting st_globalFilter].
  repeat (split; [reflexivity |]).
  unfold firstDesc, getFirstSortDir, getAutoSortDir.
  destruct (getFilteredRowModel table) as [|row rest].
  - split; [discriminate | intros (? & ? & ? & ? & _); discriminate].
  - destruct (getValue row columnId) as [| |b|n|s] eqn:E;
      (split; [try discriminate; intros _; by eauto |]);
      try (intros (r & l & s' & [= <- <-] & Hs); congruence); done.
Qed.

(** The header "id" of the five items holds numbers: the first click sorts
    descending, the second ascending, the third not at all. *)
Lemma header_clicks_cycle_witness :
  let w1 := clickHeader fiveItems "id" false initialState ∅ in
  let w2 := clickHeader fiveItems "id" false (fst w1) (snd w1) in
  let w3 := clickHeader fiveItems "id" false (fst w2) (snd w2) in
  st_sorting (fst w1) = [ {| sort_id := "id"; desc := true |} ]
  /\ st_sorting (fst w2) = [ {| sort_id := "id"; desc := false |} ]
  /\ st_sorting (fst w3) = [].
Proof.
  intros w1 w2 w3.
  pose proof (header_clicks_cycle fiveItems initialState ∅ "id"
                ltac:(by eexists) ltac:(reflexivity))
    as (H1 & H2 & H3 & _).
  split; [exact H1 |]. split; [exact H2 | exact H3].
Defined.

(** X13: plain clicks on column headers sort by one column at a time: from
    a state with at most one sort entry, a click on a sortable column
    leaves either no entry or one entry for the clicked column, and after
    any sequence of clicks there is at most one entry; the clicks change
    neither the stored page index nor the search text. *)
Theorem plain_header_clicks_sort_by_one_column
    (props : TableProps) (st : TableState) (ctx : gmap string Z) :
  (length (st_sorting st) <= 1)%nat ->
  (forall columnId,
      is_Some (getColumn (useReactTable props st ctx) columnId) ->
      let st' := fst (clickHeader props columnId false st ctx) in
      st_sorting st' = []
      \/ exists d, st_sorting st' = [ {| sort_id := columnId; desc := d |} ])
  /\ (forall columnIds,
        let w := clickHeaders props columnIds st ctx in
        (length (st_sorting (fst w)) <= 1)%nat
        /\ snd w = ctx
        /\ st_globalFilter (fst w) = st_globalFilter st).
Proof.
  intros Hlen. split.
  - intros columnId Hcol st'. unfold st'.
    rewrite clickHeader_unfold by exact Hcol. cbn [fst st_sorting].
    by apply toggle_plain_shape.
  - intros columnIds. unfold clickHeaders. revert st Hlen.
    induction columnIds as [|c cs IH]; intros st Hlen; simpl.
    + split; [exact Hlen | split; reflexivity].
    + destruct (clickHeader_store props c false st ctx) as [Hctx Htext].
      assert (Hlen' : (length (st_sorting (fst (clickHeader props c false st ctx)))
                       <= 1)%nat).
      { unfold clickHeader.
        destruct (getColumn (useReactTable props st ctx) c); [| exact Hlen].
        rewrite setSorting_unfold. cbn [fst st_sorting].
        destruct (toggle_plain_shape (useReactTable props st ctx) c
                    (st_sorting st) Hlen) as [-> | [d ->]]; simpl; lia. }
      destruct (clickHeader props c false st ctx) as [st1 ctx1].
      simpl in Hctx, Htext, Hlen'. subst ctx1.
      specialize (IH st1 Hlen'). simpl. rewrite <- Htext. exact IH.
Qed.

Lemma plain_header_clicks_sort_by_one_column_witness :
  let w := clickHeaders fiveItems ["id"; "name"; "name"; "id"] initialState ∅ in
  (length (st_sorting (fst w)) <= 1)%nat /\ snd w = ∅.
Proof.
  intros w.
  pose proof (plain_header_clicks_sort_by_one_column fiveItems initialState ∅
                ltac:(simpl; lia)) as [_ H].
  destruct (H ["id"; "name"; "name"; "id"]) as (Hlen & Hctx & _).
  split; [exact Hlen | exact Hctx].
Defined.

(** ** The task management modal *)

Lemma bool_filter_length_le {A : Type} (f : A -> bool) (l : list A) :
  (length (List.filter f l) <= length l)%nat.
Proof. induction l as [|x l IH]; simpl; [lia |]. destruct (f x); simpl; lia. Qed.

Lemma bool_filter_split_length {A : Type} (f : A -> bool) (l : list A) :
  (length (List.filter f l) + length (List.filter (fun x => negb (f x)) l)
   = length l)%nat.
Proof.
  induction l as [|x l IH]; simpl; [reflexivity |].
  destruct (f x); simpl; lia.
Qed.

Lemma bool_filter_perm {A : Type} (f : A -> bool) (l k : list A) :
  l ≡ₚ k -> List.filter f l ≡ₚ List.filter f k.
Proof.
  induction 1 as [|x l k _ IH|x y l|l k m _ IH1 _ IH2]; simpl.
  - reflexivity.
  - destruct (f x); [by constructor | done].
  - destruct (f x), (f y); try reflexivity. apply Permutation_swap.
  - by etrans.
Qed.

(** X14: the modal hands the tasks over newest first: [sortedTasks] is a
    rearrangement of the tasks, and when every creation date parses, a
    task that comes earlier in it was not created before one that comes
    later, and tasks created at the same time keep the order they had. *)
Theorem sortedTasks_newest_first
    (Task : Type) (getTime : Task -> option Z) (tasks : list Task) :
  sortedTasks Task getTime tasks ≡ₚ tasks
  /\ ((forall t, t ∈ tasks -> is_Some (getTime t)) ->
      (forall a b, before a b (sortedTasks Task getTime tasks) ->
         exists ta tb, getTime a = Some ta /\ getTime b = Some tb /\ tb <= ta)
      /\ (forall a b, before a b tasks -> getTime a = getTime b ->
                      before a b (sortedTasks Task getTime tasks))).
Proof.
  split; [apply sort_perm |].
  intros Hvalid.
  set (P := fun t : Task => is_Some (getTime t)).
  assert (HP : Forall P tasks) by (by apply Forall_forall).
  assert (Hsorted : StronglySorted
                      (fun a b => byCreatedAtDesc Task getTime a b <= 0)
                      (sortedTasks Task getTime tasks)).
  { apply (sort_sorted_on _ P); [| | exact HP].
    - intros x y [tx Hx] [ty Hy]. unfold byCreatedAtDesc. rewrite Hx, Hy. lia.
    - intros x y z [tx Hx] [ty Hy] [tz Hz]. unfold byCreatedAtDesc.
      rewrite Hx, Hy, Hz. lia. }
  split.
  - intros a b Hab.
    pose proof (before_sorted _ a b _ Hsorted Hab) as Hle. cbv beta in Hle.
    apply before_elem_of in Hab as [Ha Hb].
    unfold sortedTasks in Ha, Hb. rewrite sort_perm in Ha, Hb.
    destruct (Hvalid a Ha) as [ta Hta]. destruct (Hvalid b Hb) as [tb Htb].
    exists ta, tb. unfold byCreatedAtDesc in Hle. rewrite Hta, Htb in Hle.
    split; [done |]. split; [done | lia].
  - intros a b Hab Heq. apply sort_stable; [exact Hab |].
    apply before_elem_of in Hab as [Ha _].
    destruct (Hvalid a Ha) as [ta Hta].
    unfold byCreatedAtDesc. rewrite <- Heq, Hta. lia.
Qed.

(** X15: the header figures add up: "Completed" counts the completed
    tasks, "Pending" the tasks that are not completed, both lie between 0
    and "Total Tasks", and the figures are those of the sorted list too. *)
Theorem task_statistics
    (Task : Type) (isCompleted : Task -> bool) (getTime : Task -> option Z)
    (tasks : list Task) :
  pendingTasks Task isCompleted tasks
  = Z.of_nat (length (List.filter (fun t => negb (isCompleted t)) tasks))
  /\ 0 <= completedTasks Task isCompleted tasks <= totalTasks Task tasks
  /\ 0 <= pendingTasks Task isCompleted tasks <= totalTasks Task tasks
  /\ completedTasks Task isCompleted (sortedTasks Task getTime tasks)
     = completedTasks Task isCompleted tasks
  /\ totalTasks Task (sortedTasks Task getTime tasks) = totalTasks Task tasks.
Proof.
  unfold pendingTasks, completedTasks, totalTasks, sortedTasks.
  pose proof (bool_filter_split_length isCompleted tasks) as Hsplit.
  pose proof (bool_filter_length_le isCompleted tasks) as Hle.
  split; [lia |]. split; [lia |]. split; [lia |].
  split.
  - f_equal. apply Permutation_length, bool_filter_perm, sort_perm.
  - f_equal. apply sort_length.
Qed.

(** X16: what the modal renders: nothing while it is closed; once open and
    not loading, the "no tasks yet" panel exactly when there is no task,
    and otherwise the task table, which is never given an empty list and
    always gets a rearrangement of all the tasks. *)
Theorem modal_body
    (Task : Type) (isCompleted : Task -> bool) (getTime : Task -> option Z)
    (isOpen loading : bool) (tasks : list Task) :
  let view := renderModal Task isCompleted getTime isOpen loading tasks in
  (view = None <-> isOpen = false)
  /\ (forall v, view = Some v ->
        (view_body Task v = LoadingTasks Task <-> loading = true)
        /\ (view_body Task v = NoTasksYet Task <-> loading = false /\ tasks = [])
        /\ (forall data, view_body Task v = TaskTableOf Task data ->
              loading = false /\ data <> [] /\ data ≡ₚ tasks
              /\ data = sortedTasks Task getTime tasks)).
Proof.
  intros view. unfold view, renderModal.
  assert (Hlen : Nat.eqb (length (sortedTasks Task getTime tasks)) 0 = true
                 <-> tasks = []).
  { unfold sortedTasks. rewrite sort_length, Nat.eqb_eq.
    apply length_zero_iff_nil. }
  destruct isOpen; simpl.
  - split; [split; discriminate |].
    intros v [= <-]. simpl.
    destruct loading.
    + split; [done |]. split; [split; [discriminate | intros [? _]; discriminate] |].
      discriminate.
    + destruct (Nat.eqb (length (sortedTasks Task getTime tasks)) 0) eqn:E.
      * pose proof (proj1 Hlen eq_refl) as Hnil.
        split; [split; discriminate |].
        split; [done | discriminate].
      * split; [split; discriminate |].
        split.
        { split; [discriminate |]. intros [_ Hnil].
          pose proof (proj2 Hlen Hnil). discriminate. }
        intros data [= <-]. split; [done |].
        split.
        { intros Hnil. rewrite Hnil in E. discriminate. }
        split; [apply sort_perm | reflexivity].
  - split; [done |]. discriminate.
Qed.

Lemma sortedTasks_newest_first_witness :
  exists ta tb, Some 30 = Some ta /\ Some 10 = Some tb /\ tb <= ta.
Proof.
  pose proof (sortedTasks_newest_first Z Some [10; 30; 20]) as [_ H].
  destruct (H ltac:(intros t _; by eexists)) as [Horder _].
  apply (Horder 30 10).
  apply before_here, list_elem_of_further, list_elem_of_here.
Defined.

Lemma modal_body_witness :
  sortedTasks Z Some [10; 30; 20] <> []
  /\ sortedTasks Z Some [10; 30; 20] ≡ₚ [10; 30; 20].
Proof.
  pose proof (modal_body Z (fun _ => false) Some true false [10; 30; 20])
    as [_ H].
  destruct (H _ eq_refl) as (_ & _ & Htable).
  destruct (Htable (sortedTasks Z Some [10; 30; 20]) eq_refl)
    as (_ & Hne & Hperm & _).
  split; [exact Hne | exact Hperm].
Defined.

(** ** Typing more text *)

Lemma append_assoc_string (a b c : string) : (a +:+ b) +:+ c = a +:+ b +:+ c.
Proof.
  induction a as [|x a IH]; [reflexivity |].
  rewrite !append_cons. by rewrite IH.
Qed.

(** on ASCII text the letters are folded one by one *)
Lemma toLowerCase_app (a b : string) :
  Js.toLowerCase (a +:+ b) = Js.toLowerCase a +:+ Js.toLowerCase b.
Proof.
  induction a as [|x a IH]; [reflexivity |].
  rewrite append_cons. simpl. rewrite append_cons. by rewrite IH.
Qed.

Lemma includes_shorter_needle (s a b : string) :
  Js.includes s (a +:+ b) = true -> Js.includes s a = true.
Proof.
  rewrite !includes_spec. intros (pre & post & ->).
  exists pre, (b +:+ post). by rewrite append_assoc_string.
Qed.

Lemma fuzzyFilter_shorter_text (row : Row) (columnId text more : string) :
  fuzzyFilter row columnId (text +:+ more) = true ->
  fuzzyFilter row columnId text = true.
Proof.
  rewrite !fuzzyFilter_unfold, !andb_true_iff. unfold containsIgnoreCase.
  rewrite toLowerCase_app. intros [Ht Hc]. split; [done |].
  by eapply includes_shorter_needle.
Qed.

Lemma append_empty_inv (a b : string) : a +:+ b = "" -> a = "".
Proof. destruct a; [done | discriminate]. Qed.

Lemma bool_filter_length_mono {A : Type} (f g : A -> bool) (l : list A) :
  (forall x, f x = true -> g x = true) ->
  (length (List.filter f l) <= length (List.filter g l))%nat.
Proof.
  intros Hfg. induction l as [|x l IH]; simpl; [lia |].
  destruct (f x) eqn:E.
  - rewrite (Hfg x E). simpl. lia.
  - destruct (g x); simpl; lia.
Qed.

Lemma filtered_as_filter {W : Type} (table : Options W) :
  getFilteredRowModel table
  = List.filter
      (fun row => String.eqb (globalFilter table) ""
                  || match globallyFilterableColumns table with
                     | [] => true
                     | _ :: _ => false
                     end
                  || passesGlobalFilter table row)
      (getCoreRowModel table).
Proof.
  assert (Hall : forall l : list Row, List.filter (fun _ => true) l = l).
  { induction l as [|x l IH]; simpl; congruence. }
  unfold getFilteredRowModel, getPreFilteredRowModel.
  destruct (getCoreRowModel table) as [|r l] eqn:E; [reflexivity |].
  destruct (String.eqb (globalFilter table) ""); [by rewrite Hall |].
  destruct (globallyFilterableColumns table); [by rewrite Hall |].
  reflexivity.
Qed.

(** X17: on ASCII text, typing more characters into the search box only
    narrows the result: when the records, the text and the characters
    added are ASCII, every row kept for the longer text was kept for the
    text before, so the filtered row count does not grow. *)
Theorem longer_search_text_narrows
    (props : TableProps) (st : TableState) (ctx : gmap string Z) (more : string) :
  let longer := {| st_sorting := st_sorting st;
                   st_globalFilter := st_globalFilter st +:+ more |} in
  asciiData (props_data props) = true ->
  is_ascii (st_globalFilter st) = true ->
  is_ascii more = true ->
  (forall row, row ∈ getFilteredRowModel (useReactTable props longer ctx) ->
               row ∈ getFilteredRowModel (useReactTable props st ctx))
  /\ (length (getFilteredRowModel (useReactTable props longer ctx))
      <= length (getFilteredRowModel (useReactTable props st ctx)))%nat.
Proof.
  intros longer _ _ _.
  rewrite (filtered_as_filter (useReactTable props longer ctx)),
    (filtered_as_filter (useReactTable props st ctx)).
  change (getCoreRowModel (useReactTable props longer ctx))
    with (getCoreRowModel (useReactTable props st ctx)).
  change (globallyFilterableColumns (useReactTable props longer ctx))
    with (globallyFilterableColumns (useReactTable props st ctx)).
  cbn [globalFilter useReactTable longer st_globalFilter].
  set (cols := globallyFilterableColumns (useReactTable props st ctx)).
  set (core := getCoreRowModel (useReactTable props st ctx)).
  assert (Himp : forall row,
    String.eqb (st_globalFilter st +:+ more) ""
    || match cols with [] => true | _ :: _ => false end
    || passesGlobalFilter (useReactTable props longer ctx) row = true ->
    String.eqb (st_globalFilter st) ""
    || match cols with [] => true | _ :: _ => false end
    || passesGlobalFilter (useReactTable props st ctx) row = true).
  { intros row. rewrite !orb_true_iff. intros [[Hempty | Hcols] | Hpass].
    - left. left. apply String.eqb_eq in Hempty. apply String.eqb_eq.
      by eapply append_empty_inv.
    - by left; right.
    - right. unfold passesGlobalFilter in *.
      apply existsb_elem_of in Hpass as (c & Hc & Hhit).
      apply existsb_elem_of. exists c. split; [exact Hc |].
      cbn [globalFilterFn globalFilter useReactTable longer st_globalFilter] in *.
      by eapply fuzzyFilter_shorter_text. }
  split.
  - intros row. rewrite !elem_of_bool_filter. intros [Hrow Hkeep].
    split; [exact Hrow | by apply Himp].
  - by apply bool_filter_length_mono.
Qed.

(** In the five items, the rows kept for "alp" are among those kept for
    "al". *)
Lemma longer_search_text_narrows_witness :
  (length (getFilteredRowModel (useReactTable fiveItems (searching "alp") ∅))
   <= length (getFilteredRowModel (useReactTable fiveItems (searching "al") ∅)))%nat.
Proof.
  pose proof (longer_search_text_narrows fiveItems (searching "al") ∅ "p"
                ltac:(reflexivity) ltac:(reflexivity) ltac:(reflexivity)) as [_ H].
  exact H.
Defined.

(** * The pipeline and the stable sort *)

Lemma lookup_before {A : Type} (l : list A) (i j : nat) (a b : A) :
  (i < j)%nat -> l !! i = Some a -> l !! j = Some b -> before a b l.
Proof.
  revert i j. induction l as [|x l IH]; intros i j Hij Hi Hj; [done |].
  destruct j as [|j]; [lia |]. destruct i as [|i]; simpl in Hi, Hj.
  - injection Hi as <-. apply before_here. by eapply list_elem_of_lookup_2.
  - apply before_further. apply (IH i j); [lia | done | done].
Qed.

Lemma sorted_by_lookup {A : Type} (R : A -> A -> Prop) (l : list A) :
  StronglySorted R l <->
  forall (i j : nat) (a b : A),
    (i < j)%nat -> l !! i = Some a -> l !! j = Some b -> R a b.
Proof.
  split.
  - intros Hsorted i j a b Hij Hi Hj.
    apply (before_sorted R a b l Hsorted). by apply (lookup_before l i j).
  - induction l as [|x l IH]; intros H; constructor.
    + apply IH. intros i j a b Hij Hi Hj. apply (H (S i) (S j)); [lia | done | done].
    + apply Forall_forall. intros y Hy.
      apply list_elem_of_lookup in Hy as [j Hj].
      apply (H 0%nat (S j)); [lia | done | done].
Qed.

(** sorting a sequence that is in order already changes nothing *)
Lemma sort_of_sorted {A : Type} (compareFn : A -> A -> Z) (l : list A) :
  StronglySorted (fun a b => compareFn a b <= 0) l -> Js.sort compareFn l = l.
Proof.
  induction 1 as [|x l Hsorted IH Hall]; simpl; [reflexivity |].
  rewrite IH. destruct l as [|y l]; simpl; [reflexivity |].
  apply Forall_cons in Hall as [Hxy _].
  apply Z.leb_le in Hxy. by rewrite Hxy.
Qed.

Section Ordered.
Context {W : Type}.
Variable table : Options W.
Hypothesis consistent :
  consistentOn (compareRows table) (getFilteredRowModel table).

(** For a consistent comparator the sorted rows are in comparator order. *)
Lemma sorted_in_order :
  StronglySorted (fun a b => compareRows table a b <= 0) (getSortedRowModel table).
Proof.
  destruct consistent as [Hsign Htrans].
  rewrite sorted_unfold. destruct (sorting table) as [|e es] eqn:E.
  - apply sorted_by_lookup. intros i j a b Hij Hi Hj.
    pose proof (filtered_before_index table a b (lookup_before _ i j a b Hij Hi Hj)).
    unfold compareRows, availableSorting. rewrite E. simpl. lia.
  - apply (sort_sorted_on _ (fun row => row ∈ getFilteredRowModel table)).
    + intros x y Hx Hy Hgt. destruct (Hsign y x Hy Hx) as [Hlt _].
      apply Z.lt_le_incl, Hlt, Hgt.
    + intros x y z Hx Hy Hz. by apply Htrans.
    + by apply Forall_forall.
Qed.

End Ordered.

(** The rows of the table body, position by position. *)
Lemma body_lookup
    (props : TableProps) (st : TableState) (ctx : gmap string Z) (k : nat) :
  0 < props_pageSize props -> 0 <= PageStore.projectPageIndex ctx ->
  bodyRows props st ctx !! k
  = if Z.of_nat k <? props_pageSize props
    then getSortedRowModel (useReactTable props st ctx)
           !! (Z.to_nat (PageStore.projectPageIndex ctx * props_pageSize props) + k)%nat
    else None.
Proof.
  intros Hsize Hpage. unfold bodyRows, getRowModel.
  rewrite pagination_unfold. cbn [pagination useReactTable pageIndex pageSize].
  set (page := PageStore.projectPageIndex ctx).
  set (size := props_pageSize props).
  rewrite slice_take_drop by nia.
  replace (Z.to_nat ((page + 1) * size) - Z.to_nat (page * size))%nat
    with (Z.to_nat size) by nia.
  destruct (Z.ltb_spec (Z.of_nat k) size) as [Hlt | Hge].
  - rewrite lookup_take_lt by lia. apply lookup_drop.
  - apply lookup_take_ge. lia.
Qed.


Ltac enumerate_rows H :=
  vm_compute in H;
  repeat (apply elem_of_cons in H as [-> | H]);
  try (exfalso; exact (not_elem_of_nil _ H)).

Ltac consistent_by_cases :=
  split;
  [ intros x y Hx Hy; enumerate_rows Hx; enumerate_rows Hy;
    vm_compute; intuition congruence
  | intros x y z Hx Hy Hz; enumerate_rows Hx; enumerate_rows Hy;
    enumerate_rows Hz; vm_compute; intuition congruence ].

Lemma threeNumbers_consistent :
  consistentOn (compareRows (useReactTable threeNumbers (sortedBy "n" false) ∅))
    (getFilteredRowModel (useReactTable threeNumbers (sortedBy "n" false) ∅)).
Proof. consistent_by_cases. Qed.



Lemma twoPairs_consistent :
  consistentOn (compareRows (useReactTable twoPairs (sortedBy "k" true) ∅))
    (getFilteredRowModel (useReactTable twoPairs (sortedBy "k" true) ∅)).
Proof. consistent_by_cases. Qed.

